(** * rayner_tec: the service-request backend (backend/main.go)

    A shallow embedding of the Go program [backend/main.go] and the
    properties of its request handling and of its start-up.

    The program is a thin layer over three libraries: [net/http],
    [encoding/json] and [database/sql]. The embedding starts where
    [net/http] hands a request it has read to [DefaultServeMux], with which
    the program registers its one function and serves, and it ends where
    the program calls into the response writer, the JSON decoder and the
    database handle. Each of these is a small executable model, kept in a
    module named after the Go package:

    - [http]: the request multiplexer with the one pattern ["/"] (it
      cleans the path and answers a request whose path was not clean with
      a redirect of its own), the response writer (header map, status line
      written once, body), [http.Error] and [http.Redirect];
    - [json]: the decoder of [json.NewDecoder(r.Body).Decode(&solicitud)],
      that is the scanner that delimits the first JSON value of the body and
      the assignment of an object's members to the fields of a struct, and
      the encoder for a [map[string]string];
    - [sql]: the table [solicitudes] behind [db.Ping] and [db.Exec].

    Outside the embedding:

    - what [net/http] does on its own before the mux runs (it rejects a
      request it cannot parse) and after the handler (it sends no body in
      answer to HEAD and adds headers such as Date and Content-Length): a
      response here is what was handed to the writer;
    - of a request, all but its method, the path of its URL and its body.
      The program reads nothing else. The mux decides by the path as
      [r.URL.Path] has it (from Go 1.22 on by its escaped form: the same
      decision, unless the request line spells a slash or a dot of the
      path as a percent-escape), and the query string, which is left out
      here, it would only copy into the [Location] of a redirect;
    - a body that cannot be read to its end;
    - concurrency: requests are served one at a time here. The handlers
      share nothing but the database handle.

    Go strings are byte sequences and are modelled by [string], a list of
    8-bit characters. *)

From Stdlib Require Import String Ascii NArith ZArith List Lia.
From stdpp Require Import base decidable option list gmap strings.

Local Open Scope string_scope.

(** ** Bytes and text *)

(** The double quote and the line feed, which cannot be written inside a
    string literal. *)
Definition DQ : ascii := "034"%char.
Definition LF : ascii := "010"%char.

(** [quoted s] is [s] between double quotes. *)
Definition quoted (s : string) : string := String DQ (s +:+ String DQ "").

(** [fmt.Fprintln(w, s)] writes [s] followed by a line feed. *)
Definition ln (s : string) : string := s +:+ String LF "".

Definition byte_of (c : ascii) : N := N_of_ascii c.
Definition of_byte (n : N) : ascii := ascii_of_N n.

Definition snoc (s : string) (c : ascii) : string := s +:+ String c "".

Definition eqc (c d : ascii) : bool := Ascii.eqb c d.

(** [lo <= c && c <= hi], on characters and on byte values. *)
Definition within (lo hi : N) (c : ascii) : bool :=
  ((lo <=? byte_of c) && (byte_of c <=? hi))%N.

Definition between (lo hi c : ascii) : bool := within (byte_of lo) (byte_of hi) c.

(** ** unicode/utf8 *)
Module utf8.

(** [RuneError], U+FFFD, in UTF-8. *)
Definition RuneError : string :=
  String (of_byte 0xEF) (String (of_byte 0xBF) (String (of_byte 0xBD) "")).

Definition cont (r : N) : ascii := of_byte (0x80 + r mod 64).

(** [utf8.EncodeRune]: surrogates and values above U+10FFFF are written
    as [RuneError]. *)
Definition EncodeRune (r : N) : string :=
  (if r <? 0x80 then String (of_byte r) ""
   else if r <? 0x800 then String (of_byte (0xC0 + r / 64)) (String (cont r) "")
   else if (0xD800 <=? r) && (r <? 0xE000) then RuneError
   else if r <? 0x10000 then
     String (of_byte (0xE0 + r / 4096)) (String (cont (r / 64)) (String (cont r) ""))
   else if r <=? 0x10FFFF then
     String (of_byte (0xF0 + r / 262144))
       (String (cont (r / 4096)) (String (cont (r / 64)) (String (cont r) "")))
   else RuneError)%N.

(** The ranges [utf8.DecodeRune] accepts for the byte after a leading
    byte [c] (its table [acceptRanges]), with the number of continuation
    bytes; [None] for a byte that cannot lead a multi-byte sequence. *)
Definition accept (c : ascii) : option (nat * N * N) :=
  let b := byte_of c in
  (if (0xC2 <=? b) && (b <=? 0xDF) then Some (1%nat, 0x80, 0xBF)
   else if b =? 0xE0 then Some (2%nat, 0xA0, 0xBF)
   else if (0xE1 <=? b) && (b <=? 0xEC) then Some (2%nat, 0x80, 0xBF)
   else if b =? 0xED then Some (2%nat, 0x80, 0x9F)
   else if (0xEE <=? b) && (b <=? 0xEF) then Some (2%nat, 0x80, 0xBF)
   else if b =? 0xF0 then Some (3%nat, 0x90, 0xBF)
   else if (0xF1 <=? b) && (b <=? 0xF3) then Some (3%nat, 0x80, 0xBF)
   else if b =? 0xF4 then Some (3%nat, 0x80, 0x8F)
   else None)%N.

End utf8.

(** ** encoding/json *)
Module json.

(** A JSON value as the decoder sees it: strings are unquoted, numbers
    keep their text. *)
#[local] Unset Elimination Schemes.
Inductive Value :=
| Null
| Bool (b : bool)
| Number (lit : string)
| Str (s : string)
| Array (vs : list Value)
| Object (ms : list (string * Value)).
#[local] Set Elimination Schemes.

Inductive Error :=
| SyntaxError (msg : string)
| EOF
| ErrUnexpectedEOF
| UnmarshalTypeError (value : string) (field : string).

Definition isSpace (c : ascii) : bool :=
  eqc c " " || eqc c "009" || eqc c "013" || eqc c "010".

Definition isDigit (c : ascii) : bool := between "0" "9" c.

(** The value of a hexadecimal digit. *)
Definition hex (c : ascii) : option N :=
  (if between "0" "9" c then Some (byte_of c - byte_of "0")
   else if between "a" "f" c then Some (byte_of c - byte_of "a" + 10)
   else if between "A" "F" c then Some (byte_of c - byte_of "A" + 10)
   else None)%N.

(** *** Unquoting a string literal ([unquoteBytes])

    The scanner hands over the content of a literal as a list of units:
    a byte (written as such, or by a one-letter escape) or the 16-bit
    value of a [\uXXXX] escape. *)
Inductive Unit :=
| Raw (c : ascii)
| U16 (n : N).

Definition isCont (lo hi : N) (u : Unit) : bool :=
  match u with Raw c => within lo hi c | U16 _ => false end.

(** Whether a well-formed UTF-8 sequence starts at the byte [c] followed
    by [tl], and how many continuation bytes it has. *)
Definition sequence (c : ascii) (tl : list Unit) : option nat :=
  match utf8.accept c, tl with
  | Some (1, lo, hi), u1 :: _ =>
      if isCont lo hi u1 then Some 1 else None
  | Some (2, lo, hi), u1 :: u2 :: _ =>
      if isCont lo hi u1 && isCont 0x80 0xBF u2 then Some 2 else None
  | Some (3, lo, hi), u1 :: u2 :: u3 :: _ =>
      if isCont lo hi u1 && isCont 0x80 0xBF u2 && isCont 0x80 0xBF u3
      then Some 3 else None
  | _, _ => None
  end.

Definition isSurrogate (n : N) : bool := ((0xD800 <=? n) && (n <? 0xE000))%N.

(** [utf16.DecodeRune]: a high surrogate followed by a low one. *)
Definition surrogatePair (hi lo : N) : option N :=
  (if (0xD800 <=? hi) && (hi <? 0xDC00) && (0xDC00 <=? lo) && (lo <? 0xE000)
   then Some ((hi - 0xD800) * 1024 + (lo - 0xDC00) + 0x10000)
   else None)%N.

(** [pending] counts the continuation bytes of a sequence already found
    well formed, which are copied. A byte that starts no well-formed
    sequence and a surrogate without its partner become U+FFFD. *)
Fixpoint unquote (pending : nat) (us : list Unit) : string :=
  match us with
  | [] => ""
  | Raw c :: tl =>
      match pending with
      | S k => String c (unquote k tl)
      | O =>
          if (byte_of c <? 0x80)%N then String c (unquote 0 tl)
          else match sequence c tl with
               | Some k => String c (unquote k tl)
               | None => utf8.RuneError +:+ unquote 0 tl
               end
      end
  | U16 n :: tl =>
      if isSurrogate n then
        match tl with
        | U16 m :: tl' =>
            match surrogatePair n m with
            | Some r => utf8.EncodeRune r +:+ unquote 0 tl'
            | None => utf8.RuneError +:+ unquote 0 tl
            end
        | _ => utf8.RuneError +:+ unquote 0 tl
        end
      else utf8.EncodeRune n +:+ unquote 0 tl
  end.

(** *** The scanner (scanner.go)

    A state machine fed one byte at a time, with the states and the
    transitions of Go's scanner. In Go the scanner only checks the syntax
    and finds the end of the value, and the decoder then walks the same
    bytes again; here the scanner keeps what it reads, so that it ends with
    the value. The text of a number and the units of a string are carried
    by the state. [parseState] is the stack of the composite values being
    scanned; each entry carries the members or elements read so far, and for
    an object the key that is read and waits for its colon
    ([parseObjectKey _ (Some k)]) or for its value
    ([parseObjectValue _ (Some k)]). The states [stateT], [stateTr], ... of
    the three literals are one state here, [stateLiteral], with the letters
    still expected. *)
Inductive ParseState :=
| parseObjectKey (ms : list (string * Value)) (key : option string)
| parseObjectValue (ms : list (string * Value)) (key : option string)
| parseArrayValue (vs : list Value).

Inductive Step :=
| stateBeginValue
| stateBeginValueOrEmpty
| stateBeginStringOrEmpty
| stateBeginString
| stateInString (us : list Unit)
| stateInStringEsc (us : list Unit)
| stateInStringEscU (us : list Unit) (digits : list N)
| stateNeg (lit : string)
| state0 (lit : string)
| state1 (lit : string)
| stateDot (lit : string)
| stateDot0 (lit : string)
| stateE (lit : string)
| stateESign (lit : string)
| stateE0 (lit : string)
| stateLiteral (rest : string) (v : Value)
| stateEndValue.

Record scanner := { step : Step; parseState : list ParseState }.

Inductive Op :=
| scanContinue (s : scanner)
| scanEnd (v : Value)
| scanError (msg : string).

Definition maxNestingDepth : N := 10000.

Definition continue (st : Step) (stack : list ParseState) : Op :=
  scanContinue {| step := st; parseState := stack |}.

Definition pushParseState (new : ParseState) (st : Step)
    (stack : list ParseState) : Op :=
  if (N.of_nat (length (new :: stack)) <=? maxNestingDepth)%N
  then continue st (new :: stack)
  else scanError "exceeded max depth".

(** A value is complete: it ends the top-level value, or it is the key,
    the member value or the element the enclosing value waits for. *)
Definition endValue (v : Value) (stack : list ParseState) : Op :=
  match stack with
  | [] => scanEnd v
  | parseObjectKey ms None :: st =>
      match v with
      | Str k => continue stateEndValue (parseObjectKey ms (Some k) :: st)
      | _ => scanError "looking for beginning of object key string"
      end
  | parseObjectValue ms (Some k) :: st =>
      continue stateEndValue (parseObjectValue (ms ++ [(k, v)]) None :: st)
  | parseArrayValue vs :: st =>
      continue stateEndValue (parseArrayValue (vs ++ [v]) :: st)
  | _ => scanError "unexpected value"
  end.

(** [stateEndValue] inside a composite value: after a key, a member or
    an element. *)
Definition afterValue (c : ascii) (stack : list ParseState) : Op :=
  if isSpace c then continue stateEndValue stack
  else
    match stack with
    | parseObjectKey ms (Some k) :: st =>
        if eqc c ":" then continue stateBeginValue (parseObjectValue ms (Some k) :: st)
        else scanError "after object key"
    | parseObjectValue ms None :: st =>
        if eqc c "," then continue stateBeginString (parseObjectKey ms None :: st)
        else if eqc c "}" then endValue (Object ms) st
        else scanError "after object key:value pair"
    | parseArrayValue vs :: st =>
        if eqc c "," then continue stateBeginValue stack
        else if eqc c "]" then endValue (Array vs) st
        else scanError "after array element"
    | _ => scanError "after top-level value"
    end.

(** A number ends at the first byte [c] that cannot continue it; [c] is
    then read in the state after a value, unless the number was the
    top-level value. *)
Definition endNumber (lit : string) (c : ascii) (stack : list ParseState) : Op :=
  match endValue (Number lit) stack with
  | scanContinue s => afterValue c (parseState s)
  | op => op
  end.

Definition beginValue (c : ascii) (stack : list ParseState) : Op :=
  if eqc c "{" then pushParseState (parseObjectKey [] None) stateBeginStringOrEmpty stack
  else if eqc c "[" then pushParseState (parseArrayValue []) stateBeginValueOrEmpty stack
  else if eqc c DQ then continue (stateInString []) stack
  else if eqc c "-" then continue (stateNeg "-") stack
  else if eqc c "0" then continue (state0 "0") stack
  else if eqc c "t" then continue (stateLiteral "rue" (Bool true)) stack
  else if eqc c "f" then continue (stateLiteral "alse" (Bool false)) stack
  else if eqc c "n" then continue (stateLiteral "ull" Null) stack
  else if between "1" "9" c then continue (state1 (String c "")) stack
  else scanError "looking for beginning of value".

Definition beginString (c : ascii) (stack : list ParseState) : Op :=
  if eqc c DQ then continue (stateInString []) stack
  else scanError "looking for beginning of object key string".

(** The escapes of one letter. *)
Definition escape (c : ascii) : option ascii :=
  if eqc c "b" then Some (of_byte 8)
  else if eqc c "f" then Some (of_byte 12)
  else if eqc c "n" then Some LF
  else if eqc c "r" then Some (of_byte 13)
  else if eqc c "t" then Some (of_byte 9)
  else if eqc c "\" || eqc c "/" || eqc c DQ then Some c
  else None.

Definition u16 (digits : list N) : N :=
  fold_left (fun acc d => acc * 16 + d)%N digits 0%N.

Definition isExp (c : ascii) : bool := eqc c "e" || eqc c "E".

Definition transition (s : scanner) (c : ascii) : Op :=
  let stack := parseState s in
  match step s with
  | stateBeginValue =>
      if isSpace c then scanContinue s else beginValue c stack
  | stateBeginValueOrEmpty =>
      if isSpace c then scanContinue s
      else if eqc c "]" then afterValue c stack
      else beginValue c stack
  | stateBeginStringOrEmpty =>
      if isSpace c then scanContinue s
      else if eqc c "}" then
        match stack with
        | parseObjectKey ms None :: st => afterValue c (parseObjectValue ms None :: st)
        | _ => scanError "looking for beginning of object key string"
        end
      else beginString c stack
  | stateBeginString =>
      if isSpace c then scanContinue s else beginString c stack
  | stateInString us =>
      if eqc c DQ then endValue (Str (unquote 0 (rev us))) stack
      else if eqc c "\" then continue (stateInStringEsc us) stack
      else if (byte_of c <? 0x20)%N then scanError "in string literal"
      else continue (stateInString (Raw c :: us)) stack
  | stateInStringEsc us =>
      if eqc c "u" then continue (stateInStringEscU us []) stack
      else match escape c with
           | Some e => continue (stateInString (Raw e :: us)) stack
           | None => scanError "in string escape code"
           end
  | stateInStringEscU us digits =>
      match hex c with
      | Some d =>
          if (length digits =? 3)%nat
          then continue (stateInString (U16 (u16 (digits ++ [d])) :: us)) stack
          else continue (stateInStringEscU us (digits ++ [d])) stack
      | None => scanError "in \u hexadecimal character escape"
      end
  | stateNeg lit =>
      if eqc c "0" then continue (state0 (snoc lit c)) stack
      else if between "1" "9" c then continue (state1 (snoc lit c)) stack
      else scanError "in numeric literal"
  | state1 lit =>
      if isDigit c then continue (state1 (snoc lit c)) stack
      else if eqc c "." then continue (stateDot (snoc lit c)) stack
      else if isExp c then continue (stateE (snoc lit c)) stack
      else endNumber lit c stack
  | state0 lit =>
      if eqc c "." then continue (stateDot (snoc lit c)) stack
      else if isExp c then continue (stateE (snoc lit c)) stack
      else endNumber lit c stack
  | stateDot lit =>
      if isDigit c then continue (stateDot0 (snoc lit c)) stack
      else scanError "after decimal point in numeric literal"
  | stateDot0 lit =>
      if isDigit c then continue (stateDot0 (snoc lit c)) stack
      else if isExp c then continue (stateE (snoc lit c)) stack
      else endNumber lit c stack
  | stateE lit =>
      if eqc c "+" || eqc c "-" then continue (stateESign (snoc lit c)) stack
      else if isDigit c then continue (stateE0 (snoc lit c)) stack
      else scanError "in exponent of numeric literal"
  | stateESign lit =>
      if isDigit c then continue (stateE0 (snoc lit c)) stack
      else scanError "in exponent of numeric literal"
  | stateE0 lit =>
      if isDigit c then continue (stateE0 (snoc lit c)) stack
      else endNumber lit c stack
  | stateLiteral rest v =>
      match rest with
      | String e rest' =>
          if eqc c e then
            match rest' with
            | "" => endValue v stack
            | _ => continue (stateLiteral rest' v) stack
            end
          else scanError "in literal"
      | "" => scanError "in literal"
      end
  | stateEndValue => afterValue c stack
  end.

Definition reset : scanner := {| step := stateBeginValue; parseState := [] |}.

(** [Decoder.readValue] on a body that is read to its end: the first
    JSON value of [buf]. Nothing after that value is looked at. At the
    end of the input the scanner is fed one space, which ends a top-level
    number. *)
Fixpoint readValue (s : scanner) (buf : string) : Value + Error :=
  match buf with
  | "" =>
      match transition s " " with
      | scanEnd v => inl v
      | _ =>
          match step s, parseState s with
          | stateBeginValue, [] => inr EOF
          | _, _ => inr ErrUnexpectedEOF
          end
      end
  | String c rest =>
      match transition s c with
      | scanContinue s' => readValue s' rest
      | scanEnd v => inl v
      | scanError msg => inr (SyntaxError msg)
      end
  end.

(** *** Decoding into a struct (decode.go)

    A struct whose fields are all strings, as reflection presents it to
    the decoder: the names of the [json] tags in declaration order, and
    the assignment to the field of a given index. *)
Class Struct (T : Type) := {
  fieldNames : list string;
  setField : nat -> string -> T -> T
}.

(** [foldName]: ASCII letters in upper case, and the two letters outside
    ASCII that fold to an ASCII letter, U+017F (long s) and U+212A
    (Kelvin sign). Every other character outside ASCII folds to a
    character outside ASCII and is left as it is here, which decides the
    comparison with a folded ASCII name in the same way. *)
Fixpoint foldName (s : string) : string :=
  match s with
  | "" => ""
  | String c rest =>
      if between "a" "z" c
      then String (of_byte (byte_of c - (byte_of "a" - byte_of "A"))) (foldName rest)
      else
        match rest with
        | String c1 rest1 =>
            if eqc c (of_byte 0xC5) && eqc c1 (of_byte 0xBF)
            then String "S" (foldName rest1)
            else
              match rest1 with
              | String c2 rest2 =>
                  if eqc c (of_byte 0xE2) && eqc c1 (of_byte 0x84) && eqc c2 (of_byte 0xAA)
                  then String "K" (foldName rest2)
                  else String c (foldName rest)
              | "" => String c (foldName rest)
              end
        | "" => String c (foldName rest)
        end
  end.

(** The field an object key names: the field of exactly that name,
    otherwise the first field whose name is the same up to case. *)
Definition findField (names : list string) (key : string) : option (nat * string) :=
  match list_find (λ name, name = key) names with
  | Some f => Some f
  | None => list_find (λ name, foldName name = foldName key) names
  end.

Definition kind (v : Value) : string :=
  match v with
  | Null => "null"
  | Bool _ => "bool"
  | Number _ => "number"
  | Str _ => "string"
  | Array _ => "array"
  | Object _ => "object"
  end.

(** [saveError] keeps the first error; decoding goes on. *)
Definition saveError (saved : option Error) (e : Error) : option Error :=
  match saved with
  | None => Some e
  | Some _ => saved
  end.

(** One member of an object: a key that names no field is skipped with
    its value; a string is stored; [null] leaves the field as it is; any
    other value is a type error for a string field. *)
Definition member {T} `{Struct T} (acc : T * option Error) (m : string * Value)
    : T * option Error :=
  match findField fieldNames m.1 with
  | None => acc
  | Some (i, name) =>
      match m.2 with
      | Str s => (setField i s acc.1, acc.2)
      | Null => acc
      | v => (acc.1, saveError acc.2 (UnmarshalTypeError (kind v) name))
      end
  end.

(** [unmarshal] of a value into a struct: an object is stored member by
    member, [null] changes nothing, anything else is a type error. *)
Definition unmarshal {T} `{Struct T} (v : Value) (dst : T) : T * option Error :=
  match v with
  | Object ms => fold_left member ms (dst, None)
  | Null => (dst, None)
  | v => (dst, Some (UnmarshalTypeError (kind v) ""))
  end.

(** [json.NewDecoder(body).Decode(&dst)]: the destination as the call
    leaves it, and the error it returns. *)
Definition Decode {T} `{Struct T} (body : string) (dst : T) : T * option Error :=
  match readValue reset body with
  | inl v => unmarshal v dst
  | inr e => (dst, Some e)
  end.

(** *** Encoding (encode.go)

    A string between quotes, with the escapes of [appendString] with
    HTML escaping on, as [Encoder.Encode] has it. Bytes outside ASCII are
    copied: the program encodes only text that is well-formed UTF-8
    without U+2028 and U+2029. *)
Definition hexDigit (n : N) : ascii :=
  (if n <? 10 then of_byte (byte_of "0" + n) else of_byte (byte_of "a" + n - 10))%N.

Definition appendByte (c : ascii) : string :=
  if eqc c DQ || eqc c "\" then String "\" (String c "")
  else if eqc c (of_byte 8) then "\b"
  else if eqc c (of_byte 12) then "\f"
  else if eqc c LF then "\n"
  else if eqc c (of_byte 13) then "\r"
  else if eqc c (of_byte 9) then "\t"
  else if (byte_of c <? 0x20)%N || eqc c "<" || eqc c ">" || eqc c "&" then
    "\u00" +:+ String (hexDigit (byte_of c / 16)) (String (hexDigit (byte_of c mod 16)) "")
  else String c "".

Fixpoint appendBytes (s : string) : string :=
  match s with
  | "" => ""
  | String c rest => appendByte c +:+ appendBytes rest
  end.

Definition appendString (s : string) : string := quoted (appendBytes s).

Fixpoint members (m : list (string * string)) : string :=
  match m with
  | [] => ""
  | [(k, v)] => appendString k +:+ ":" +:+ appendString v
  | (k, v) :: rest => appendString k +:+ ":" +:+ appendString v +:+ "," +:+ members rest
  end.

(** [Encoder.Encode] of a [map[string]string], given by its entries in
    the order of their keys: the object, then a line feed. *)
Definition Encode (m : list (string * string)) : string :=
  ln ("{" +:+ members m +:+ "}").

End json.

(** ** The SQL statements of the program

    [createTableSQL] is the statement of [main], [insertSQL] the one of
    [submitServiceHandler], byte for byte. *)
Definition createTableSQL : string := "
	CREATE TABLE IF NOT EXISTS solicitudes (
		id INT AUTO_INCREMENT PRIMARY KEY,
		nombre VARCHAR(255) NOT NULL,
		telefono VARCHAR(255) NOT NULL,
		servicio VARCHAR(255) NOT NULL,
		fecha_creacion TIMESTAMP DEFAULT CURRENT_TIMESTAMP
	);
	".

Definition insertSQL : string :=
  "INSERT INTO solicitudes (nombre, telefono, servicio) VALUES (?, ?, ?)".

(** ** database/sql and the MySQL server behind it *)
Module sql.

(** A row of the table [solicitudes]: the five columns of
    [createTableSQL]. *)
Record Row := {
  id : Z;
  nombre : string;
  telefono : string;
  servicio : string;
  fecha_creacion : Z
}.

(** The server's answer to a statement: it ran it, at a time of its
    clock, or it refused it with an error. The reasons of a refusal
    (the connection is lost, the server is in strict mode and a value is
    longer than its column, the range of [id] is used up) are the
    server's and are not modelled further. *)
Inductive Reply :=
| Ran (now : Z)
| Refused (err : string).

(** What is behind the handle [db]: the table, the next value of the
    [AUTO_INCREMENT] column, the number of statements sent so far, and
    the server's answer to the statement of each rank. *)
Record DB := {
  solicitudes : list Row;
  AUTO_INCREMENT : Z;
  sent : nat;
  server : nat -> Reply
}.

Definition answered (db : DB) : DB :=
  {| solicitudes := solicitudes db;
     AUTO_INCREMENT := AUTO_INCREMENT db;
     sent := S (sent db);
     server := server db |}.

(** [INSERT INTO solicitudes (nombre, telefono, servicio) VALUES (?, ?, ?)]:
    the server assigns [id] and [fecha_creacion]. *)
Definition insert (n t s : string) (now : Z) (db : DB) : DB :=
  {| solicitudes :=
       solicitudes db ++
         [{| id := AUTO_INCREMENT db; nombre := n; telefono := t;
             servicio := s; fecha_creacion := now |}];
     AUTO_INCREMENT := AUTO_INCREMENT db + 1;
     sent := sent db;
     server := server db |}.

(** [db.Ping()] *)
Definition Ping (db : DB) : DB * option string :=
  match server db (sent db) with
  | Ran _ => (answered db, None)
  | Refused err => (answered db, Some err)
  end.

(** [db.Exec(query, args...)] for the two statements of the program.
    The table is there in every state: before it is created it is the
    table without rows, so that [CREATE TABLE IF NOT EXISTS] changes nothing,
    and an insert into a table that does not exist is one of the server's
    refusals. *)
Definition Exec (query : string) (args : list string) (db : DB) : DB * option string :=
  match server db (sent db) with
  | Refused err => (answered db, Some err)
  | Ran now =>
      if decide (query = insertSQL) then
        match args with
        | [n; t; s] => (insert n t s now (answered db), None)
        | _ => (answered db, Some "sql: wrong number of arguments")
        end
      else if decide (query = createTableSQL) then (answered db, None)
      else (answered db, Some "sql: statement not modelled")
  end.

End sql.

(** ** strings, path and net/url

    What [net/http]'s request multiplexer uses of these packages. *)
Module strings.

Fixpoint HasPrefix (s prefix : string) : bool :=
  match prefix, s with
  | "", _ => true
  | String a prefix, String b s => eqc a b && HasPrefix s prefix
  | _, "" => false
  end.

Definition HasSuffix (s suffix : string) : bool :=
  (String.length suffix <=? String.length s)%nat &&
  String.eqb
    (String.substring (String.length s - String.length suffix) (String.length suffix) s)
    suffix.

End strings.

Module path.

(** The elements of a path, the texts between its slashes; [cur] is what
    is read of the current one. *)
Fixpoint elements (cur p : string) : list string :=
  match p with
  | "" => [cur]
  | String c rest =>
      if eqc c "/" then cur :: elements "" rest else elements (snoc cur c) rest
  end.

(** One turn of the loop of [Clean], which reads one element: an empty
    element and [.] are dropped; [..] takes back the last element written,
    if there is one to take back, and is itself written when the path is
    not rooted and there is none; any other element is written. [out] holds
    the elements written so far, and in a path that is not rooted these are
    some [..] followed by elements that can be taken back. *)
Definition element (rooted : bool) (out : list string) (e : string) : list string :=
  if decide (e = "") then out
  else if decide (e = ".") then out
  else if decide (e = "..") then
    match last out with
    | Some top => if decide (top = "..") then (out ++ [".."])%list else removelast out
    | None => if rooted then out else (out ++ [".."])%list
    end
  else (out ++ [e])%list.

(** [path.Clean] *)
Definition Clean (p : string) : string :=
  if decide (p = "") then "."
  else
    let rooted := strings.HasPrefix p "/" in
    let out := fold_left (element rooted) (elements "" p) [] in
    let s := (if rooted then "/" else "") +:+ String.concat "/" out in
    if decide (s = "") then "." else s.

End path.

Module url.

Definition upperhex (n : N) : ascii :=
  (if n <? 10 then of_byte (byte_of "0" + n) else of_byte (byte_of "A" + n - 10))%N.

(** [shouldEscape(c, encodePath)] *)
Definition shouldEscape (c : ascii) : bool :=
  if between "a" "z" c || between "A" "Z" c || between "0" "9" c then false
  else if eqc c "-" || eqc c "_" || eqc c "." || eqc c "~" then false
  else if eqc c "$" || eqc c "&" || eqc c "+" || eqc c "," || eqc c "/" || eqc c ":"
          || eqc c ";" || eqc c "=" || eqc c "?" || eqc c "@" then eqc c "?"
  else true.

(** [escape(s, encodePath)] *)
Fixpoint escape (s : string) : string :=
  match s with
  | "" => ""
  | String c rest =>
      if shouldEscape c
      then String "%" (String (upperhex (byte_of c / 16))
                         (String (upperhex (byte_of c mod 16)) (escape rest)))
      else String c (escape rest)
  end.

End url.

(** ** net/http *)
Module http.

Definition StatusOK : nat := 200.
Definition StatusBadRequest : nat := 400.
Definition StatusMethodNotAllowed : nat := 405.
Definition StatusInternalServerError : nat := 500.
Definition StatusMovedPermanently : nat := 301.
Definition StatusNotFound : nat := 404.

(** [http.Request], as far as the program reads it: [r.Method],
    [r.URL.Path], and the bytes that [r.Body] delivers. *)
Record Request := {
  Method : string;
  Path : string;
  Body : string
}.

(** The [http.ResponseWriter] of one request: the header map the handler
    fills, the status line once it is written, with the headers as they were
    at that moment (later changes of the map are not sent), and the body
    written so far. *)
Record ResponseWriter := {
  header : gmap string (list string);
  wroteHeader : option (nat * gmap string (list string));
  written : string
}.

Definition fresh : ResponseWriter :=
  {| header := ∅; wroteHeader := None; written := "" |}.

(** [w.Header().Set(key, value)]. Every key the program passes is in the
    canonical form of [textproto.CanonicalMIMEHeaderKey] already. *)
Definition Header_Set (key value : string) (w : ResponseWriter) : ResponseWriter :=
  {| header := <[key := [value]]> (header w);
     wroteHeader := wroteHeader w;
     written := written w |}.

(** [w.Header().Del(key)] *)
Definition Header_Del (key : string) (w : ResponseWriter) : ResponseWriter :=
  {| header := delete key (header w);
     wroteHeader := wroteHeader w;
     written := written w |}.

(** [w.WriteHeader(code)]: only the first call counts. *)
Definition WriteHeader (code : nat) (w : ResponseWriter) : ResponseWriter :=
  match wroteHeader w with
  | Some _ => w
  | None =>
      {| header := header w;
         wroteHeader := Some (code, header w);
         written := written w |}
  end.

(** [w.Write(data)]: writes the status line with [StatusOK] first if it is
    not written yet. *)
Definition Write (data : string) (w : ResponseWriter) : ResponseWriter :=
  let w := WriteHeader StatusOK w in
  {| header := header w;
     wroteHeader := wroteHeader w;
     written := written w +:+ data |}.

(** [http.Error(w, error, code)] *)
Definition Error (error : string) (code : nat) (w : ResponseWriter) : ResponseWriter :=
  let w := Header_Del "Content-Length" w in
  let w := Header_Set "Content-Type" "text/plain; charset=utf-8" w in
  let w := Header_Set "X-Content-Type-Options" "nosniff" w in
  let w := WriteHeader code w in
  Write (ln error) w.

(** *** The request multiplexer (server.go)

    [http.HandleFunc] registers with [DefaultServeMux], and
    [http.ListenAndServe(addr, nil)] serves with it. The mux holds the one
    pattern ["/"] here. *)

(** [cleanPath]: the canonical form of a path, without [.] and [..]
    elements and without repeated slashes; a slash at the end stays. *)
Definition cleanPath (p : string) : string :=
  if decide (p = "") then "/"
  else
    let p := if strings.HasPrefix p "/" then p else "/" +:+ p in
    let np := path.Clean p in
    if strings.HasSuffix p "/" && negb (String.eqb np "/") then
      if (String.length p =? String.length np + 1)%nat && strings.HasPrefix p np
      then p else np +:+ "/"
    else np.

(** What [ServeMux.Handler] finds for a request: the handler registered
    for ["/"], a redirect or [NotFoundHandler]. *)
Inductive Found :=
| Registered
| RedirectHandler (url : string) (code : nat)
| NotFoundHandler.

(** [ServeMux.Handler]. A CONNECT request is matched as it is, and ["/"]
    matches every path that starts with a slash; the path of any other
    request is cleaned, and a request whose path was not clean is
    redirected to the clean one ([url.URL{Path: path}.String()]). The
    redirect to a path with a slash added does not arise with the pattern
    ["/"] alone. *)
Definition ServeMux_Handler (r : Request) : Found :=
  if decide (Method r = "CONNECT") then
    if strings.HasPrefix (Path r) "/" then Registered else NotFoundHandler
  else
    let path := cleanPath (Path r) in
    if decide (path ≠ Path r) then RedirectHandler (url.escape path) StatusMovedPermanently
    else Registered.

Definition hexDigit (n : N) : ascii :=
  (if n <? 10 then of_byte (byte_of "0" + n) else of_byte (byte_of "a" + n - 10))%N.

Fixpoint hexEscapeNonASCII (s : string) : string :=
  match s with
  | "" => ""
  | String c rest =>
      if (0x80 <=? byte_of c)%N
      then String "%" (String (hexDigit (byte_of c / 16))
                         (String (hexDigit (byte_of c mod 16)) (hexEscapeNonASCII rest)))
      else String c (hexEscapeNonASCII rest)
  end.

Fixpoint htmlEscape (s : string) : string :=
  match s with
  | "" => ""
  | String c rest =>
      (if eqc c "&" then "&amp;"
       else if eqc c "<" then "&lt;"
       else if eqc c ">" then "&gt;"
       else if eqc c DQ then "&#34;"
       else if eqc c "'" then "&#39;"
       else String c "") +:+ htmlEscape rest
  end.

(** [url] up to its first question mark, and the rest. *)
Fixpoint splitQuery (url : string) : string * string :=
  match url with
  | "" => ("", "")
  | String c rest =>
      if eqc c "?" then ("", url)
      else let (p, q) := splitQuery rest in (String c p, q)
  end.

(** [http.StatusText], for the codes that occur here. *)
Definition StatusText (code : nat) : string :=
  if decide (code = StatusOK) then "OK"
  else if decide (code = StatusMovedPermanently) then "Moved Permanently"
  else if decide (code = StatusBadRequest) then "Bad Request"
  else if decide (code = StatusNotFound) then "Not Found"
  else if decide (code = StatusMethodNotAllowed) then "Method Not Allowed"
  else if decide (code = StatusInternalServerError) then "Internal Server Error"
  else "".

(** [http.Redirect(w, r, url, code)] for a [url] that is a path starting
    with one slash, as the mux passes it: [url.Parse] finds neither scheme
    nor host in it, and it need not be made absolute. *)
Definition Redirect (method url : string) (code : nat) (w : ResponseWriter)
    : ResponseWriter :=
  let (url, query) := splitQuery url in
  let trailing := strings.HasSuffix url "/" in
  let url := path.Clean url in
  let url := if trailing && negb (strings.HasSuffix url "/") then url +:+ "/" else url in
  let url := url +:+ query in
  let hadCT := bool_decide (is_Some (header w !! "Content-Type")) in
  let w := Header_Set "Location" (hexEscapeNonASCII url) w in
  let w := if negb hadCT && (String.eqb method "GET" || String.eqb method "HEAD")
           then Header_Set "Content-Type" "text/html; charset=utf-8" w else w in
  let w := WriteHeader code w in
  if negb hadCT && String.eqb method "GET" then
    Write (ln ("<a href=" +:+ quoted (htmlEscape url) +:+ ">" +:+ StatusText code
               +:+ "</a>." +:+ String LF "")) w
  else w.

(** [http.NotFound] *)
Definition NotFound (w : ResponseWriter) : ResponseWriter :=
  Error "404 page not found" StatusNotFound w.

(** What the handler has handed to the writer when it returns: status,
    headers and body. A handler that wrote nothing answers [StatusOK]. *)
Record Response := {
  StatusCode : nat;
  Headers : gmap string (list string);
  Content : string
}.

Definition finish (w : ResponseWriter) : Response :=
  match wroteHeader w with
  | Some (code, h) => {| StatusCode := code; Headers := h; Content := written w |}
  | None => {| StatusCode := StatusOK; Headers := header w; Content := written w |}
  end.

End http.

(** ** The process and its surroundings *)

(** What the process does to the outside: a line on standard output, a
    line of the logger, a call on the database handle ([sql.Open],
    [db.Ping], [db.Exec]), the registration of a handler, the call that
    listens, and the reading of a request body. *)
Inductive Effect :=
| Stdout (text : string)
| Log (text : string)
| EOpen (driverName dataSourceName : string)
| EPing
| EExec (query : string) (args : list string)
| EHandleFunc (pattern : string)
| EListenAndServe (addr : string)
| EBodyRead.

(** The surroundings: the environment variables, the driver's verdict on
    a data source name ([sql.Open] checks its form and connects to nothing),
    the error that keeps the port from being listened on, if any, the
    database server, and the effects so far (oldest first). *)
Record World := {
  environ : gmap string string;
  dsnError : string -> option string;
  listenError : option string;
  db : sql.DB;
  trace : list Effect
}.

Definition emit (e : Effect) (wd : World) : World :=
  {| environ := environ wd; dsnError := dsnError wd; listenError := listenError wd;
     db := db wd; trace := trace wd ++ [e] |}.

Definition with_db (d : sql.DB) (wd : World) : World :=
  {| environ := environ wd; dsnError := dsnError wd; listenError := listenError wd;
     db := d; trace := trace wd |}.

(** [os.Getenv]: the empty string for a variable that is not set. *)
Definition Getenv (key : string) (wd : World) : string :=
  default "" (environ wd !! key).

(** Code that only touches the surroundings is a state transformer on
    [World]. [main] runs in [Proc], where [log.Fatal] ends the process and
    [http.ListenAndServe] takes over for good; a handler runs in [Handler],
    which adds the response writer of its request to the state. *)
Inductive Result (A : Type) :=
| Return (a : A)
| Exit (code : nat)
| Serve (addr : string).
Arguments Return {A} a.
Arguments Exit {A} code.
Arguments Serve {A} addr.

Definition Proc (A : Type) : Type := World -> Result A * World.

#[global] Instance Proc_ret : MRet Proc := λ A a wd, (Return a, wd).

#[global] Instance Proc_bind : MBind Proc := λ A B f m wd,
  match m wd with
  | (Return a, wd') => f a wd'
  | (Exit code, wd') => (Exit code, wd')
  | (Serve addr, wd') => (Serve addr, wd')
  end.

(** The state of a handler: the response writer [w] of its request, and
    the surroundings. *)
Record Conn := {
  w : http.ResponseWriter;
  world : World
}.

Definition Handler (A : Type) : Type := Conn -> A * Conn.

#[global] Instance Handler_ret : MRet Handler := λ A a c, (a, c).

#[global] Instance Handler_bind : MBind Handler := λ A B f m c, f (m c).1 (m c).2.

(** Code on the surroundings runs in either of them. *)
Class Lift (M : Type -> Type) := lift : ∀ A, (World -> A * World) -> M A.
Arguments lift {M _ A} f.

#[global] Instance Proc_lift : Lift Proc := λ A f wd, (Return (f wd).1, (f wd).2).

#[global] Instance Handler_lift : Lift Handler := λ A f c,
  ((f (world c)).1, {| w := w c; world := (f (world c)).2 |}).

(** A call on the response writer. *)
Definition on_w (f : http.ResponseWriter -> http.ResponseWriter) : Handler unit :=
  λ c, (tt, {| w := f (w c); world := world c |}).

(** *** The calls of the program *)

Definition os_Getenv `{Lift M} (key : string) : M string :=
  lift (λ wd, (Getenv key wd, wd)).

(** [fmt.Println], and [fmt.Printf] with a format that ends the line. *)
Definition fmt_Println `{Lift M} (text : string) : M unit :=
  lift (λ wd, (tt, emit (Stdout (ln text)) wd)).

Definition log_Printf `{Lift M} (text : string) : M unit :=
  lift (λ wd, (tt, emit (Log text) wd)).

(** [log.Fatal], [log.Fatalf]: the message, then [os.Exit(1)]. *)
Definition log_Fatal {A} (text : string) : Proc A :=
  λ wd, (Exit 1, emit (Log text) wd).

(** [sql.Open], [db.Ping] and [db.Exec], with the error each returns. The
    deferred [db.Close()] of [main] never runs: [main] ends in [log.Fatal]
    or does not end. *)
Definition sql_Open `{Lift M} (driverName dataSourceName : string) : M (option string) :=
  lift (λ wd, (dsnError wd dataSourceName, emit (EOpen driverName dataSourceName) wd)).

Definition db_Ping `{Lift M} : M (option string) :=
  lift (λ wd, let r := sql.Ping (db wd) in (r.2, emit EPing (with_db r.1 wd))).

Definition db_Exec `{Lift M} (query : string) (args : list string) : M (option string) :=
  lift (λ wd, let r := sql.Exec query args (db wd) in
              (r.2, emit (EExec query args) (with_db r.1 wd))).

Definition http_HandleFunc `{Lift M} (pattern : string) : M unit :=
  lift (λ wd, (tt, emit (EHandleFunc pattern) wd)).

(** [http.ListenAndServe]: it returns with an error, or it serves and
    does not return. *)
Definition http_ListenAndServe (addr : string) : Proc string :=
  λ wd, match listenError wd with
        | Some err => (Return err, emit (EListenAndServe addr) wd)
        | None => (Serve addr, emit (EListenAndServe addr) wd)
        end.

Definition w_Header_Set (key value : string) : Handler unit :=
  on_w (http.Header_Set key value).

Definition w_WriteHeader (code : nat) : Handler unit := on_w (http.WriteHeader code).

Definition http_Error (error : string) (code : nat) : Handler unit :=
  on_w (http.Error error code).

(** [json.NewDecoder(r.Body).Decode(&dst)] *)
Definition json_Decode {T} `{json.Struct T} (body : string) (dst : T)
    : Handler (T * option json.Error) :=
  lift (λ wd, (json.Decode body dst, emit EBodyRead wd)).

(** [json.NewEncoder(w).Encode(m)] *)
Definition json_Encode (m : list (string * string)) : Handler unit :=
  on_w (http.Write (json.Encode m)).

(** * The program *)

(** [type Solicitud struct], with the names of its [json] tags. *)
Record Solicitud := {
  Nombre : string;
  Telefono : string;
  Servicio : string
}.

#[global] Instance Solicitud_struct : json.Struct Solicitud := {|
  json.fieldNames := ["nombre"; "telefono"; "servicio"];
  json.setField i s v :=
    match i with
    | 0 => {| Nombre := s; Telefono := Telefono v; Servicio := Servicio v |}
    | 1 => {| Nombre := Nombre v; Telefono := s; Servicio := Servicio v |}
    | 2 => {| Nombre := Nombre v; Telefono := Telefono v; Servicio := s |}
    | _ => v
    end
|}.

(** [var solicitud Solicitud]: the zero value. *)
Definition zero : Solicitud := {| Nombre := ""; Telefono := ""; Servicio := "" |}.

(** The text [{"message": "..."}] of the error bodies, as the source
    spells it (a space after the colon). *)
Definition message (text : string) : string :=
  "{" +:+ quoted "message" +:+ ": " +:+ quoted text +:+ "}".

Definition allowHeaders : string :=
  "Content-Type, Access-Control-Allow-Headers, Authorization, X-Requested-With".

Definition submitServiceHandler (r : http.Request) : Handler unit :=
  w_Header_Set "Access-Control-Allow-Origin" "*";;
  w_Header_Set "Access-Control-Allow-Methods" "POST, OPTIONS";;
  w_Header_Set "Access-Control-Allow-Headers" allowHeaders;;
  w_Header_Set "Content-Type" "application/json";;
  if decide (http.Method r = "OPTIONS") then
    w_WriteHeader http.StatusOK
  else if decide (http.Method r ≠ "POST") then
    http_Error (message "Método no permitido") http.StatusMethodNotAllowed
  else
    '(solicitud, err) ← json_Decode (http.Body r) zero;
    match err with
    | Some _ =>
        http_Error (message "Error al decodificar la solicitud JSON") http.StatusBadRequest
    | None =>
        log_Printf ("Solicitud recibida para el servicio '" +:+ Servicio solicitud
                    +:+ "': Nombre='" +:+ Nombre solicitud
                    +:+ "', Teléfono='" +:+ Telefono solicitud +:+ "'");;
        err ← db_Exec insertSQL [Nombre solicitud; Telefono solicitud; Servicio solicitud];
        match err with
        | Some e =>
            log_Printf ("Error al insertar en la base de datos: " +:+ e);;
            http_Error (message "Error interno del servidor al guardar la solicitud")
              http.StatusInternalServerError
        | None =>
            json_Encode [("message", "Solicitud recibida con éxito!")]
        end
    end.

(** The function literal that [main] registers for the pattern ["/"]. *)
Definition rootHandler (r : http.Request) : Handler unit :=
  w_Header_Set "Access-Control-Allow-Origin" "*";;
  w_Header_Set "Access-Control-Allow-Methods" "POST, GET, OPTIONS, PUT, DELETE";;
  w_Header_Set "Access-Control-Allow-Headers" allowHeaders;;
  if decide (http.Method r = "OPTIONS") then
    w_WriteHeader http.StatusOK
  else if decide (http.Path r = "/submit-service") then
    submitServiceHandler r
  else
    http_Error "Bienvenido a la API de servicios. Usa /submit-service para enviar datos."
      http.StatusOK.

Definition main : Proc unit :=
  dbURL ← os_Getenv "MYSQL_URL";
  (if decide (dbURL = "") then
     log_Fatal "La variable de entorno MYSQL_URL no está configurada. Asegúrate de que Railway la esté inyectando o configúrala localmente para pruebas."
   else mret tt);;
  err ← sql_Open "mysql" dbURL;
  match err with
  | Some e => log_Fatal ("Error al conectar a la base de datos: " +:+ e)
  | None => mret tt
  end;;
  err ← db_Ping;
  match err with
  | Some e => log_Fatal ("Error al hacer ping a la base de datos: " +:+ e)
  | None => mret tt
  end;;
  fmt_Println "Conexión a la base de datos MySQL establecida con éxito.";;
  err ← db_Exec createTableSQL [];
  match err with
  | Some e => log_Fatal ("Error al crear la tabla 'solicitudes': " +:+ e)
  | None => mret tt
  end;;
  fmt_Println "Tabla 'solicitudes' verificada/creada con éxito.";;
  http_HandleFunc "/";;
  port ← os_Getenv "PORT";
  let port := if decide (port = "") then "8080" else port in
  fmt_Println ("Servidor Go escuchando en el puerto :" +:+ port);;
  err ← http_ListenAndServe (":" +:+ port);
  log_Fatal err.

(** [DefaultServeMux.ServeHTTP], with the function literal of [main]
    registered for ["/"]. The request target [*], for which [r.URL.Path]
    is [*] too, is answered 400 (with [Connection: close], the request
    being HTTP/1.1); otherwise the handler that [ServeMux.Handler] finds
    runs. *)
Definition DefaultServeMux (r : http.Request) : Handler unit :=
  if decide (http.Path r = "*") then
    w_Header_Set "Connection" "close";;
    w_WriteHeader http.StatusBadRequest
  else
    match http.ServeMux_Handler r with
    | http.Registered => rootHandler r
    | http.RedirectHandler url code => on_w (http.Redirect (http.Method r) url code)
    | http.NotFoundHandler => on_w http.NotFound
    end.

(** One request, as [net/http] serves it once [main] listens: the mux
    runs on a fresh response writer; what was handed to the writer is the
    response. *)
Definition serve (r : http.Request) (wd : World) : http.Response * World :=
  let c := (DefaultServeMux r {| w := http.fresh; world := wd |}).2 in
  (http.finish (w c), world c).

(** A sequence of requests, served one after the other. *)
Fixpoint serve_all (rs : list http.Request) (wd : World) : World :=
  match rs with
  | [] => wd
  | r :: rs => serve_all rs (serve r wd).2
  end.

(** * Vocabulary of the statements *)

(** The rows with their ids: every id is below the counter, and no two
    rows share one. *)
Definition unique_ids (d : sql.DB) : Prop :=
  Forall (λ row, (sql.id row < sql.AUTO_INCREMENT d)%Z) (sql.solicitudes d) ∧
  NoDup (sql.id <$> sql.solicitudes d).

(** The headers both handlers set first, with the methods they name. *)
Definition cors (methods : string) : list (string * list string) :=
  [("Access-Control-Allow-Origin", ["*"]);
   ("Access-Control-Allow-Methods", [methods]);
   ("Access-Control-Allow-Headers", [allowHeaders])].

(** The headers [http.Error] sets. *)
Definition plain : list (string * list string) :=
  [("Content-Type", ["text/plain; charset=utf-8"]);
   ("X-Content-Type-Options", ["nosniff"])].

Definition response (code : nat) (headers : list (string * list string))
    (content : string) : http.Response :=
  {| http.StatusCode := code;
     http.Headers := list_to_map headers;
     http.Content := content |}.

(** A path in canonical form: cleaning it changes nothing. It starts with
    a slash and has no empty element, no [.] and no [..]. *)
Definition canonical (p : string) : Prop := http.cleanPath p = p.

(** The mux hands the request to the registered function. *)
Definition routed (r : http.Request) : Prop :=
  http.Path r ≠ "*" ∧ http.ServeMux_Handler r = http.Registered.

(** A POST to the submission path. *)
Definition submit (r : http.Request) : Prop :=
  http.Method r = "POST" ∧ http.Path r = "/submit-service".

(** The line logged for a decoded submission. *)
Definition received (s : Solicitud) : string :=
  "Solicitud recibida para el servicio '" +:+ Servicio s +:+ "': Nombre='"
  +:+ Nombre s +:+ "', Teléfono='" +:+ Telefono s +:+ "'".

(** The arguments of the insert for a decoded submission. *)
Definition args (s : Solicitud) : list string := [Nombre s; Telefono s; Servicio s].

(** The text [{"message":"..."}] as [json.Encode] writes it. *)
Definition encoded (text : string) : string :=
  ln ("{" +:+ quoted "message" +:+ ":" +:+ quoted text +:+ "}").

(** The six ways a request can go that the mux hands to the registered
    function, each with the response and the surroundings it ends in. *)
Inductive outcome (r : http.Request) (wd : World) : http.Response * World -> Prop :=
| Preflight :
    http.Method r = "OPTIONS" ->
    outcome r wd (response 200 (cors "POST, GET, OPTIONS, PUT, DELETE") "", wd)
| Welcome :
    http.Method r ≠ "OPTIONS" -> http.Path r ≠ "/submit-service" ->
    outcome r wd
      (response 200 (cors "POST, GET, OPTIONS, PUT, DELETE" ++ plain)
         (ln "Bienvenido a la API de servicios. Usa /submit-service para enviar datos."),
       wd)
| MethodNotAllowed :
    http.Path r = "/submit-service" ->
    http.Method r ≠ "POST" -> http.Method r ≠ "OPTIONS" ->
    outcome r wd
      (response 405 (cors "POST, OPTIONS" ++ plain) (ln (message "Método no permitido")),
       wd)
| BadRequest s e :
    submit r -> json.Decode (http.Body r) zero = (s, Some e) ->
    outcome r wd
      (response 400 (cors "POST, OPTIONS" ++ plain)
         (ln (message "Error al decodificar la solicitud JSON")),
       emit EBodyRead wd)
| InsertFailed s d e :
    submit r -> json.Decode (http.Body r) zero = (s, None) ->
    sql.Exec insertSQL (args s) (db wd) = (d, Some e) ->
    outcome r wd
      (response 500 (cors "POST, OPTIONS" ++ plain)
         (ln (message "Error interno del servidor al guardar la solicitud")),
       emit (Log ("Error al insertar en la base de datos: " +:+ e))
         (emit (EExec insertSQL (args s))
            (with_db d (emit (Log (received s)) (emit EBodyRead wd)))))
| Accepted s d :
    submit r -> json.Decode (http.Body r) zero = (s, None) ->
    sql.Exec insertSQL (args s) (db wd) = (d, None) ->
    outcome r wd
      (response 200 (cors "POST, OPTIONS" ++ [("Content-Type", ["application/json"])])
         (encoded "Solicitud recibida con éxito!"),
       emit (EExec insertSQL (args s))
         (with_db d (emit (Log (received s)) (emit EBodyRead wd)))).

(** A member of the object [ms] names the field of index [i] of
    [Solicitud]. *)
Definition named (i : nat) (ms : list (string * json.Value)) : Prop :=
  Exists (λ m, fst <$> json.findField (@json.fieldNames Solicitud _) m.1 = Some i) ms.

(** Every member of [ms] that names a field of [Solicitud] holds a
    string or [null]. *)
Definition strings (ms : list (string * json.Value)) : Prop :=
  Forall (λ m, is_Some (json.findField (@json.fieldNames Solicitud _) m.1) ->
               m.2 = json.Null ∨ ∃ s, m.2 = json.Str s) ms.

(** [main] ends the process with status 1; the last thing it did is to
    log [msg], after the effects [done]. *)
Definition fatal (wd : World) (done : list Effect) (msg : string) : Prop :=
  (main wd).1 = Exit 1 ∧ trace (main wd).2 = (trace wd ++ done ++ [Log msg])%list.

(** The steps of start-up that have succeeded: the connection string is
    there and [sql.Open] took it; then the ping went through; then the
    table was created. *)
Definition opened (wd : World) : Prop :=
  Getenv "MYSQL_URL" wd ≠ "" ∧ dsnError wd (Getenv "MYSQL_URL" wd) = None.

Definition pinged (wd : World) : Prop :=
  opened wd ∧ (sql.Ping (db wd)).2 = None.

Definition created (wd : World) : Prop :=
  pinged wd ∧ (sql.Exec createTableSQL [] (sql.Ping (db wd)).1).2 = None.

(** The address [main] listens on: [PORT], or 8080 when it is not set. *)
Definition addr (wd : World) : string :=
  ":" +:+ (if decide (Getenv "PORT" wd = "") then "8080" else Getenv "PORT" wd).

(** What start-up has done once the table is created. *)
Definition ready (wd : World) : list Effect :=
  [EOpen "mysql" (Getenv "MYSQL_URL" wd); EPing;
   Stdout (ln "Conexión a la base de datos MySQL establecida con éxito.");
   EExec createTableSQL [];
   Stdout (ln "Tabla 'solicitudes' verificada/creada con éxito.");
   EHandleFunc "/";
   Stdout (ln ("Servidor Go escuchando en el puerto " +:+ addr wd));
   EListenAndServe (addr wd)].

(** ** Sample requests and surroundings *)

(** A server with an empty table that runs every statement, and one that
    is not reachable. *)
Definition running : sql.DB :=
  {| sql.solicitudes := []; sql.AUTO_INCREMENT := 1; sql.sent := 0;
     sql.server := λ _, sql.Ran 0 |}.

Definition unreachable : sql.DB :=
  {| sql.solicitudes := []; sql.AUTO_INCREMENT := 1; sql.sent := 0;
     sql.server := λ _, sql.Refused "invalid connection" |}.

Definition surroundings (vars : list (string * string)) (d : sql.DB) : World :=
  {| environ := list_to_map vars; dsnError := λ _, None; listenError := None;
     db := d; trace := [] |}.

Definition healthy : World := surroundings [] running.

Definition offline : World := surroundings [] unreachable.

Definition request (method path body : string) : http.Request :=
  {| http.Method := method; http.Path := path; http.Body := body |}.

Definition post (body : string) : http.Request :=
  request "POST" "/submit-service" body.

(** [{"nombre":"Ana","telefono":"555-1234","servicio":"limpieza"}] *)
Definition ana_json : string :=
  "{" +:+ quoted "nombre" +:+ ":" +:+ quoted "Ana" +:+ ","
  +:+ quoted "telefono" +:+ ":" +:+ quoted "555-1234" +:+ ","
  +:+ quoted "servicio" +:+ ":" +:+ quoted "limpieza" +:+ "}".

Definition ana : Solicitud :=
  {| Nombre := "Ana"; Telefono := "555-1234"; Servicio := "limpieza" |}.

(** [{"nombre":123}] *)
Definition wrong_type_json : string := "{" +:+ quoted "nombre" +:+ ":123}".

(** ** Vocabulary of the further properties *)

(** The statements sent to the database among some effects, in order. *)
Definition statements (t : list Effect) : list (string * list string) :=
  omap (λ e, match e with EExec query args => Some (query, args) | _ => None end) t.

(** The six responses the handlers can hand to the writer. *)
Definition responses : list http.Response :=
  [response 200 (cors "POST, GET, OPTIONS, PUT, DELETE") "";
   response 200 (cors "POST, GET, OPTIONS, PUT, DELETE" ++ plain)
     (ln "Bienvenido a la API de servicios. Usa /submit-service para enviar datos.");
   response 405 (cors "POST, OPTIONS" ++ plain) (ln (message "Método no permitido"));
   response 400 (cors "POST, OPTIONS" ++ plain)
     (ln (message "Error al decodificar la solicitud JSON"));
   response 500 (cors "POST, OPTIONS" ++ plain)
     (ln (message "Error interno del servidor al guardar la solicitud"));
   response 200 (cors "POST, OPTIONS" ++ [("Content-Type", ["application/json"])])
     (encoded "Solicitud recibida con éxito!")].

(** The ids grow along the table: a row further down has a greater id,
    and every id is below the counter. *)
Definition increasing (d : sql.DB) : Prop :=
  (∀ i j ri rj, i < j ->
     sql.solicitudes d !! i = Some ri -> sql.solicitudes d !! j = Some rj ->
     (sql.id ri < sql.id rj)%Z) ∧
  Forall (λ row, (sql.id row < sql.AUTO_INCREMENT d)%Z) (sql.solicitudes d).


(** The field of a [Solicitud] that [json.setField] sets for an index. *)
Definition field (i : nat) (s : Solicitud) : string :=
  match i with
  | 0 => Nombre s
  | 1 => Telefono s
  | 2 => Servicio s
  | _ => ""
  end.

(** A text of white space only, and a text of ASCII bytes only. *)
Fixpoint blank (s : string) : bool :=
  match s with
  | "" => true
  | String c rest => json.isSpace c && blank rest
  end.

Fixpoint ascii_only (s : string) : bool :=
  match s with
  | "" => true
  | String c rest => (byte_of c <? 0x80)%N && ascii_only rest
  end.

Definition ascii_pair (m : string * string) : Prop :=
  ascii_only m.1 = true ∧ ascii_only m.2 = true.

(** An entry of a [map[string]string] as the member of a JSON object. *)
Definition text (m : string * string) : string * json.Value := (m.1, json.Str m.2).


(** *** Runs of the scanner

    [feed s buf] is the scanner after the bytes [buf], when none of them
    ends the value or is an error. *)
Fixpoint feed (s : json.scanner) (buf : string) : option json.scanner :=
  match buf with
  | "" => Some s
  | String c rest =>
      match json.transition s c with
      | json.scanContinue s' => feed s' rest
      | _ => None
      end
  end.

(** The scanner inside a string literal, at the start of a member of an
    object, and after a member. *)
Definition inString (us : list json.Unit) (stack : list json.ParseState) : json.scanner :=
  {| json.step := json.stateInString us; json.parseState := stack |}.

Definition inObject (st : json.Step) (ms : list (string * json.Value))
    (stack : list json.ParseState) : json.scanner :=
  {| json.step := st; json.parseState := json.parseObjectKey ms None :: stack |}.

Definition afterMember (ms : list (string * json.Value))
    (stack : list json.ParseState) : json.scanner :=
  {| json.step := json.stateEndValue;
     json.parseState := json.parseObjectValue ms None :: stack |}.

Definition beginKey (st : json.Step) : Prop :=
  st = json.stateBeginStringOrEmpty ∨ st = json.stateBeginString.

(** The letters a literal still expects are a tail of [true], [false] or
    [null]: what holds of every state the scanner reaches from [reset]. *)
Definition settled (s : json.scanner) : Prop :=
  match json.step s with
  | json.stateLiteral rest _ =>
      rest = "rue" ∨ rest = "ue" ∨ rest = "e" ∨
      rest = "alse" ∨ rest = "lse" ∨ rest = "se" ∨
      rest = "ull" ∨ rest = "ll" ∨ rest = "l"
  | _ => True
  end.

(** The unit the scanner keeps for an ASCII byte the encoder wrote with
    [json.appendByte]: the 16-bit value where the encoder wrote a [\u00XX]
    escape, the byte otherwise. *)
Definition unit_of (c : ascii) : json.Unit :=
  if eqc c DQ || eqc c "\" || eqc c (of_byte 8) || eqc c (of_byte 12) || eqc c LF
     || eqc c (of_byte 13) || eqc c (of_byte 9) then json.Raw c
  else if (byte_of c <? 0x20)%N || eqc c "<" || eqc c ">" || eqc c "&"
  then json.U16 (byte_of c)
  else json.Raw c.

Fixpoint units (s : string) : list json.Unit :=
  match s with
  | "" => []
  | String c rest => unit_of c :: units rest
  end.

(** *** More surroundings *)

(** All is well but the port is taken. *)
Definition busy : World :=
  {| environ := list_to_map [("MYSQL_URL", "mysql://db")]; dsnError := λ _, None;
     listenError := Some "listen tcp :8080: bind: address already in use";
     db := running; trace := [] |}.

(** [{"nombre":"a","nombre":"b"}] *)
Definition twice_json : string :=
  "{" +:+ quoted "nombre" +:+ ":" +:+ quoted "a" +:+ ","
  +:+ quoted "nombre" +:+ ":" +:+ quoted "b" +:+ "}".


(** * Properties *)

(** ** The database *)

(** A statement that the server ran and that is the insert adds one row,
    with the next [id]; the lemma reads this off [Exec]'s result. *)
Lemma Exec_insert_ran n t s d d' :
  sql.Exec insertSQL [n; t; s] d = (d', None) ->
  ∃ now, sql.server d (sql.sent d) = sql.Ran now ∧
         d' = sql.insert n t s now (sql.answered d).
Proof.
  unfold sql.Exec. destruct (sql.server d (sql.sent d)) as [now|err]; [|done].
  rewrite decide_True by done. intros [= <-]. by exists now.
Qed.

(** A statement that returns an error leaves the table as it was. *)
Lemma Exec_error query args d d' e :
  sql.Exec query args d = (d', Some e) ->
  sql.solicitudes d' = sql.solicitudes d ∧ sql.AUTO_INCREMENT d' = sql.AUTO_INCREMENT d.
Proof.
  unfold sql.Exec. destruct (sql.server d (sql.sent d)) as [now|err].
  - repeat case_decide; [destruct args as [|? [|? [|? [|? ?]]]]|..];
      intros [= <- ?]; done.
  - intros [= <- ?]. done.
Qed.

Lemma unique_ids_insert n t s now d :
  unique_ids d -> unique_ids (sql.insert n t s now (sql.answered d)).
Proof.
  intros [Hlt Hnd]. split; simpl.
  - apply Forall_app. split.
    + eapply Forall_impl; [exact Hlt|]. simpl. intros. lia.
    + repeat constructor. simpl. lia.
  - rewrite fmap_app. apply NoDup_app. repeat split; [done| |].
    + intros i Hi ->%list_elem_of_singleton.
      apply list_elem_of_fmap in Hi as (row & Heq & Hin).
      rewrite Forall_forall in Hlt. specialize (Hlt _ Hin). simpl in *. lia.
    + simpl. apply NoDup_singleton.
Qed.

(** ** The mux

    A path in canonical form starts with a slash, and the mux hands a
    request with such a path to the registered function, whatever its
    method. The submission path is one. *)

Lemma HasPrefix_slash p :
  strings.HasPrefix p "/" = true <-> ∃ q, p = String "/" q.
Proof.
  destruct p as [|c p]; cbn [strings.HasPrefix].
  - split; [done|by intros [? ?]].
  - assert (strings.HasPrefix p "" = true) as -> by by destruct p.
    rewrite andb_true_r. unfold eqc. rewrite Ascii.eqb_eq. split.
    + intros <-. by eexists.
    + by intros [? [= <- _]].
Qed.

Lemma Clean_rooted p :
  strings.HasPrefix p "/" = true -> ∃ t, path.Clean p = String "/" t.
Proof.
  intros Hp. unfold path.Clean.
  destruct (decide (p = "")) as [->|_]; [discriminate|]. rewrite Hp.
  change ("/" +:+ ?t) with (String "/" t). by eexists.
Qed.

Lemma cleanPath_rooted p : ∃ t, http.cleanPath p = String "/" t.
Proof.
  unfold http.cleanPath. case_decide; [by eexists|].
  assert (∃ q, (if strings.HasPrefix p "/" then p else "/" +:+ p) = String "/" q)
    as [q ->].
  { destruct (strings.HasPrefix p "/") eqn:Hp; [by apply HasPrefix_slash|].
    change ("/" +:+ p) with (String "/" p). by eexists. }
  destruct (Clean_rooted (String "/" q)) as [t ->]; [by apply HasPrefix_slash; eexists|].
  repeat case_match; by eexists.
Qed.

Lemma canonical_routed r : canonical (http.Path r) -> routed r.
Proof.
  unfold canonical, routed, http.ServeMux_Handler. intros Hc.
  destruct (cleanPath_rooted (http.Path r)) as [t Ht]. rewrite Hc in Ht.
  rewrite Ht. split; [done|].
  case_decide; [by rewrite (proj2 (HasPrefix_slash _)) by by eexists|].
  rewrite <- Ht. by rewrite decide_False by (by intros []).
Qed.

Lemma submit_path_canonical r : http.Path r = "/submit-service" -> canonical (http.Path r).
Proof. by intros ->. Qed.

Lemma DefaultServeMux_routed r : routed r -> DefaultServeMux r = rootHandler r.
Proof.
  intros [H1 H2]. unfold DefaultServeMux. rewrite decide_False by done. by rewrite H2.
Qed.

(** A request that the mux keeps is answered 301, 400 or 404 by the mux
    itself, and the surroundings stay as they were. *)
Lemma serve_kept r wd :
  ¬ routed r ->
  (serve r wd).2 = wd ∧ http.StatusCode (serve r wd).1 ∈ [301; 400; 404].
Proof.
  intros Hn. unfold serve, DefaultServeMux.
  case_decide; [split; [done|set_solver]|].
  destruct (http.ServeMux_Handler r) as [|url code|] eqn:Hf.
  - by destruct Hn.
  - split; [done|].
    assert (code = 301) as ->.
    { unfold http.ServeMux_Handler in Hf. repeat case_match; by simplify_eq. }
    unfold http.Redirect. destruct (http.splitQuery url) as [u q]. simpl.
    repeat case_match; simpl; set_solver.
  - split; [done|set_solver].
Qed.

(** ** The paths through the handlers

    Each lemma gives the whole result of [serve] on one path; together they
    cover every request that the mux hands on ([serve_outcome]). *)

Ltac handlers := unfold serve, rootHandler, submitServiceHandler, json_Decode.

Ltac statement :=
  unfold mbind, Handler_bind, db_Exec, lift, Handler_lift; simpl.

Section Paths.
Context (r : http.Request) (wd : World).

Lemma serve_preflight :
  routed r ->
  http.Method r = "OPTIONS" ->
  serve r wd = (response 200 (cors "POST, GET, OPTIONS, PUT, DELETE") "", wd).
Proof.
  intros Hr HM. unfold serve. rewrite DefaultServeMux_routed by done.
  handlers. rewrite HM. reflexivity.
Qed.

Lemma serve_welcome :
  routed r ->
  http.Method r ≠ "OPTIONS" -> http.Path r ≠ "/submit-service" ->
  serve r wd =
    (response 200 (cors "POST, GET, OPTIONS, PUT, DELETE" ++ plain)
       (ln "Bienvenido a la API de servicios. Usa /submit-service para enviar datos."),
     wd).
Proof.
  intros Hr HM HP. unfold serve. rewrite DefaultServeMux_routed by done.
  handlers. repeat case_decide; try done.
Qed.

Lemma serve_method_not_allowed :
  http.Path r = "/submit-service" ->
  http.Method r ≠ "POST" -> http.Method r ≠ "OPTIONS" ->
  serve r wd =
    (response 405 (cors "POST, OPTIONS" ++ plain) (ln (message "Método no permitido")),
     wd).
Proof.
  intros HP HM HO. unfold serve.
  rewrite DefaultServeMux_routed by by apply canonical_routed, submit_path_canonical.
  handlers. rewrite HP. repeat case_decide; try done.
Qed.

Lemma serve_bad_request s e :
  submit r -> json.Decode (http.Body r) zero = (s, Some e) ->
  serve r wd =
    (response 400 (cors "POST, OPTIONS" ++ plain)
       (ln (message "Error al decodificar la solicitud JSON")),
     emit EBodyRead wd).
Proof.
  intros [HM HP] HD. unfold serve.
  rewrite DefaultServeMux_routed by by apply canonical_routed, submit_path_canonical.
  handlers. rewrite HM, HP, HD. reflexivity.
Qed.

Lemma serve_insert_failed s d e :
  submit r -> json.Decode (http.Body r) zero = (s, None) ->
  sql.Exec insertSQL (args s) (db wd) = (d, Some e) ->
  serve r wd =
    (response 500 (cors "POST, OPTIONS" ++ plain)
       (ln (message "Error interno del servidor al guardar la solicitud")),
     emit (Log ("Error al insertar en la base de datos: " +:+ e))
       (emit (EExec insertSQL (args s))
          (with_db d (emit (Log (received s)) (emit EBodyRead wd))))).
Proof.
  intros [HM HP] HD HE. unfold serve.
  rewrite DefaultServeMux_routed by by apply canonical_routed, submit_path_canonical.
  handlers. rewrite HM, HP, HD. statement.
  unfold args in HE. rewrite HE. reflexivity.
Qed.

Lemma serve_accepted s d :
  submit r -> json.Decode (http.Body r) zero = (s, None) ->
  sql.Exec insertSQL (args s) (db wd) = (d, None) ->
  serve r wd =
    (response 200 (cors "POST, OPTIONS" ++ [("Content-Type", ["application/json"])])
       (encoded "Solicitud recibida con éxito!"),
     emit (EExec insertSQL (args s))
       (with_db d (emit (Log (received s)) (emit EBodyRead wd)))).
Proof.
  intros [HM HP] HD HE. unfold serve.
  rewrite DefaultServeMux_routed by by apply canonical_routed, submit_path_canonical.
  handlers. rewrite HM, HP, HD. statement.
  unfold args in HE. rewrite HE. reflexivity.
Qed.

(** Every request that the mux hands on takes one of the six paths. *)
Lemma serve_outcome : routed r -> outcome r wd (serve r wd).
Proof.
  intros Hr.
  destruct (decide (http.Method r = "OPTIONS")) as [HO|HO].
  { rewrite serve_preflight by done. by constructor. }
  destruct (decide (http.Path r = "/submit-service")) as [HP|HP];
    [|rewrite serve_welcome by done; by constructor].
  destruct (decide (http.Method r = "POST")) as [HM|HM];
    [|rewrite serve_method_not_allowed by done; by constructor].
  destruct (json.Decode (http.Body r) zero) as [s [e|]] eqn:HD.
  { erewrite serve_bad_request by done. by econstructor. }
  destruct (sql.Exec insertSQL (args s) (db wd)) as [d [e|]] eqn:HE.
  - erewrite serve_insert_failed by done. by econstructor.
  - erewrite serve_accepted by done. by econstructor.
Qed.

(** Whatever the request, [serve] leaves the table as it was or appends
    one row that carries the next [id]: rows are never changed or removed. *)
Lemma serve_rows :
  (sql.solicitudes (db (serve r wd).2) = sql.solicitudes (db wd) ∧
   sql.AUTO_INCREMENT (db (serve r wd).2) = sql.AUTO_INCREMENT (db wd)) ∨
  (∃ s now, db (serve r wd).2 = sql.insert (Nombre s) (Telefono s) (Servicio s) now
                                   (sql.answered (db wd))).
Proof.
  destruct (http.ServeMux_Handler r) as [|url code|] eqn:Hf;
    [destruct (decide (http.Path r = "*")) as [Hp|Hp]|..].
  2: { destruct (serve_outcome (conj Hp Hf)) as [| | | |s d e _ _ HE|s d _ _ HE];
         simpl; try by left.
       - left. exact (Exec_error _ _ _ _ _ HE).
       - right. apply Exec_insert_ran in HE as (now & _ & ->). by exists s, now. }
  all: left; rewrite (proj1 (serve_kept r wd ltac:(intros [? ?]; congruence))); done.
Qed.

End Paths.

(** Unique ids are an invariant of the service: each request keeps it,
    and so does every sequence of requests. A table that was just created
    has it. *)
Lemma serve_unique_ids r wd :
  unique_ids (db wd) -> unique_ids (db (serve r wd).2).
Proof.
  intros Hu. destruct (serve_rows r wd) as [[Hrows Hai]|(s & now & ->)].
  - unfold unique_ids. rewrite Hrows, Hai. exact Hu.
  - by apply unique_ids_insert.
Qed.

Lemma serve_all_unique_ids rs :
  ∀ wd, unique_ids (db wd) -> unique_ids (db (serve_all rs wd)).
Proof.
  induction rs as [|r rs IH]; intros wd Hu; [done|].
  cbn [serve_all]. by apply IH, serve_unique_ids.
Qed.

Lemma unique_ids_running : unique_ids running.
Proof. split; [apply Forall_nil_2|apply NoDup_nil_2]. Qed.

(** Rows are only ever appended: what was in the table stays, in its
    place. *)
Lemma serve_all_appends rs :
  ∀ wd, sql.solicitudes (db wd) `prefix_of` sql.solicitudes (db (serve_all rs wd)).
Proof.
  induction rs as [|r rs IH]; intros wd; [done|].
  cbn [serve_all]. etrans; [|apply IH].
  destruct (serve_rows r wd) as [[Hrows _]|(s & now & Hdb)].
  - by rewrite Hrows.
  - rewrite Hdb. simpl. by apply prefix_app_r.
Qed.

(** Every request is handed on and takes one of the six paths, or the
    mux keeps it. *)
Lemma serve_cases r wd :
  routed r ∧ outcome r wd (serve r wd) ∨
  ¬ routed r ∧ (serve r wd).2 = wd ∧ http.StatusCode (serve r wd).1 ∈ [301; 400; 404].
Proof.
  destruct (http.ServeMux_Handler r) as [|url code|] eqn:Hf;
    [destruct (decide (http.Path r = "*")) as [Hp|Hp]|..].
  2: { left. split; [done|]. by apply serve_outcome. }
  all: right; assert (¬ routed r) by (intros [? ?]; congruence);
    split; [done|]; by apply serve_kept.
Qed.

(** A POST to the submission path that is answered 200 went all the way:
    the body decoded and the row was inserted. *)
Lemma accepted_inv r wd :
  submit r ->
  http.StatusCode (serve r wd).1 = http.StatusOK ->
  ∃ s now,
    json.Decode (http.Body r) zero = (s, None) ∧
    db (serve r wd).2
      = sql.insert (Nombre s) (Telefono s) (Servicio s) now (sql.answered (db wd)).
Proof.
  intros [HM HP].
  destruct (serve_outcome r wd (canonical_routed r (submit_path_canonical r HP)))
    as [| | | | |s d _ HD HE]; try discriminate; try congruence.
  intros _. simpl. apply Exec_insert_ran in HE as (now & _ & ->). by exists s, now.
Qed.

(** ** The decoder *)

(** Setting the field of one index leaves the other fields alone. *)
Lemma setField_other i v s :
  (i ≠ 0 -> Nombre (json.setField i v s) = Nombre s) ∧
  (i ≠ 1 -> Telefono (json.setField i v s) = Telefono s) ∧
  (i ≠ 2 -> Servicio (json.setField i v s) = Servicio s).
Proof. destruct i as [|[|[|i]]]; simpl; repeat split; congruence. Qed.

(** Storing the members of an object whose fields all hold strings or
    [null] saves no error, and a field that no member names keeps its
    value. *)
Lemma fold_member ms :
  strings ms ->
  ∀ dst, ∃ s,
    fold_left json.member ms (dst, None) = (s, None) ∧
    (¬ named 0 ms -> Nombre s = Nombre dst) ∧
    (¬ named 1 ms -> Telefono s = Telefono dst) ∧
    (¬ named 2 ms -> Servicio s = Servicio dst).
Proof.
  induction 1 as [|m ms Hm Hms IH]; intros dst; [by exists dst|].
  assert (Htl : ∀ i, ¬ named i (m :: ms) -> ¬ named i ms).
  { intros i Hn Hi. apply Hn. by apply Exists_cons_tl. }
  simpl. unfold json.member at 2.
  destruct (json.findField json.fieldNames m.1) as [[i name]|] eqn:Hf.
  - assert (Hhd : ∀ j, ¬ named j (m :: ms) -> i ≠ j).
    { intros j Hn ->. apply Hn. apply Exists_cons_hd. by rewrite Hf. }
    destruct Hm as [->|[v ->]]; [done| |]; simpl.
    + destruct (IH dst) as (s & Hs & H0 & H1 & H2). exists s. naive_solver.
    + destruct (IH (json.setField i v dst)) as (s & Hs & H0 & H1 & H2).
      destruct (setField_other i v dst) as (G0 & G1 & G2).
      exists s. split; [done|].
      repeat split; intros Hn.
      * rewrite H0, G0; eauto.
      * rewrite H1, G1; eauto.
      * rewrite H2, G2; eauto.
  - destruct (IH dst) as (s & Hs & H0 & H1 & H2). exists s. naive_solver.
Qed.

(** Conversely a member that names a field and holds anything else makes
    the decoder return an error: a saved error is never dropped. *)
Lemma fold_member_inv ms :
  ∀ acc : Solicitud * option json.Error,
    (fold_left json.member ms acc).2 = None -> acc.2 = None ∧ strings ms.
Proof.
  induction ms as [|m ms IH]; intros acc H; [by split; [|apply Forall_nil_2]|].
  apply IH in H as [H Hms]. unfold json.member in H.
  destruct (json.findField json.fieldNames m.1) as [[i name]|] eqn:Hf.
  - destruct m.2 eqn:Hv; simpl in H;
      try (destruct acc.2; discriminate);
      (split; [done|]); apply Forall_cons; (split; [|done]); rewrite Hv; eauto.
  - split; [done|]. apply Forall_cons. split; [|done].
    rewrite Hf. by intros [? ?].
Qed.

(** The bodies that decode: [null], and the objects whose members that
    name a field hold strings or [null]. Every other body is answered 400. *)
Lemma Decode_succeeds body :
  (json.Decode body zero).2 = None <->
  json.readValue json.reset body = inl json.Null ∨
  ∃ ms, json.readValue json.reset body = inl (json.Object ms) ∧ strings ms.
Proof.
  unfold json.Decode. split.
  - destruct (json.readValue json.reset body) as [[]|e]; try discriminate.
    + by left.
    + intros [_ Hs]%fold_member_inv. right. by eexists.
  - intros [->|(ms & -> & Hs)]; [done|].
    destruct (fold_member ms Hs zero) as (s & Heq & _). simpl. by rewrite Heq.
Qed.

(** ** Start-up *)

Ltac start :=
  cbv beta iota zeta delta
    [main mbind mret Proc_bind Proc_ret lift Proc_lift os_Getenv sql_Open db_Ping
     db_Exec fmt_Println log_Fatal http_HandleFunc http_ListenAndServe fst snd];
  simpl.

Section Startup.
Context (wd : World).

Lemma main_without_url :
  Getenv "MYSQL_URL" wd = "" ->
  fatal wd []
    "La variable de entorno MYSQL_URL no está configurada. Asegúrate de que Railway la esté inyectando o configúrala localmente para pruebas.".
Proof. intros H. unfold fatal. start. rewrite H. done. Qed.

Lemma main_open_error e :
  Getenv "MYSQL_URL" wd ≠ "" ->
  dsnError wd (Getenv "MYSQL_URL" wd) = Some e ->
  fatal wd [EOpen "mysql" (Getenv "MYSQL_URL" wd)]
    ("Error al conectar a la base de datos: " +:+ e).
Proof.
  intros H1 H2. unfold fatal. start. rewrite decide_False, H2 by done. simpl.
  by rewrite <- app_assoc.
Qed.

Lemma main_ping_error e :
  opened wd ->
  (sql.Ping (db wd)).2 = Some e ->
  fatal wd [EOpen "mysql" (Getenv "MYSQL_URL" wd); EPing]
    ("Error al hacer ping a la base de datos: " +:+ e).
Proof.
  intros [H1 H2] H3. unfold fatal. start. rewrite decide_False, H2 by done. simpl.
  destruct (sql.Ping (db wd)) as [d1 err]. simpl in H3. subst err. simpl.
  by rewrite <- !app_assoc.
Qed.

Lemma main_create_error e :
  pinged wd ->
  (sql.Exec createTableSQL [] (sql.Ping (db wd)).1).2 = Some e ->
  fatal wd
    [EOpen "mysql" (Getenv "MYSQL_URL" wd); EPing;
     Stdout (ln "Conexión a la base de datos MySQL establecida con éxito.");
     EExec createTableSQL []]
    ("Error al crear la tabla 'solicitudes': " +:+ e).
Proof.
  intros [[H1 H2] H3] H4. unfold fatal. start. rewrite decide_False, H2 by done. simpl.
  destruct (sql.Ping (db wd)) as [d1 err]. simpl in H3, H4. subst err. simpl.
  destruct (sql.Exec createTableSQL [] d1) as [d2 err]. simpl in H4. subst err. simpl.
  by rewrite <- !app_assoc.
Qed.

(** With the table created, [main] registers the handler and listens; it
    serves unless the port cannot be listened on, which is fatal too. *)
Lemma main_created :
  created wd ->
  (main wd).1 = match listenError wd with Some _ => Exit 1 | None => Serve (addr wd) end ∧
  trace (main wd).2
    = (trace wd ++ ready wd ++
         match listenError wd with Some e => [Log e] | None => [] end)%list.
Proof.
  intros [[[H1 H2] H3] H4]. unfold addr, ready. start.
  rewrite decide_False, H2 by done. simpl.
  destruct (sql.Ping (db wd)) as [d1 err]. simpl in H3, H4. subst err. simpl.
  destruct (sql.Exec createTableSQL [] d1) as [d2 err]. simpl in H4. subst err. simpl.
  destruct (listenError wd); simpl; by rewrite <- !app_assoc.
Qed.

End Startup.

(** ** The claims *)




(** C2 — A POST to [/submit-service] whose body does not decode into
    [Solicitud] (the decoder returns an error: the JSON is malformed, or a
    value has the wrong type) is answered 400 with the error body
    [{"message": "Error al decodificar la solicitud JSON"}], a JSON object.
    No row is written: the database is as it was, and the only thing the
    handler did to its surroundings is to read the body. *)
Theorem decode_error_bad_request r wd e :
  http.Method r = "POST" ->
  http.Path r = "/submit-service" ->
  (json.Decode (http.Body r) zero).2 = Some e ->
  http.StatusCode (serve r wd).1 = http.StatusBadRequest ∧
  http.Content (serve r wd).1 = ln (message "Error al decodificar la solicitud JSON") ∧
  json.readValue json.reset (http.Content (serve r wd).1)
    = inl (json.Object [("message", json.Str "Error al decodificar la solicitud JSON")]) ∧
  db (serve r wd).2 = db wd ∧
  trace (serve r wd).2 = (trace wd ++ [EBodyRead])%list.
Proof.
  intros HM HP HD.
  destruct (json.Decode (http.Body r) zero) as [s err] eqn:HD'. simpl in HD. subst err.
  erewrite serve_bad_request by done. repeat split.
Qed.

(** The scenario of the specification: [{"nombre":123}]. *)
Lemma decode_error_wrong_type :
  (json.Decode wrong_type_json zero).2 = Some (json.UnmarshalTypeError "number" "nombre") ∧
  http.StatusCode (serve (post wrong_type_json) healthy).1 = 400 ∧
  db (serve (post wrong_type_json) healthy).2 = db healthy.
Proof.
  assert (H : (json.Decode wrong_type_json zero).2
              = Some (json.UnmarshalTypeError "number" "nombre")) by reflexivity.
  destruct (decode_error_bad_request (post wrong_type_json) healthy _ eq_refl eq_refl H)
    as (H1 & _ & _ & H2 & _).
  exact (conj H (conj H1 H2)).
Defined.

(** C3 — A request to [/submit-service] whose method is neither POST nor
    OPTIONS is answered 405 (Method Not Allowed) with the error body
    [{"message": "Método no permitido"}], a JSON object with the one member
    [message], whatever the request's body is. No row is written: nothing
    is read, logged or sent to the database, the surroundings stay as they
    were. *)
Theorem other_method_not_allowed r wd :
  http.Path r = "/submit-service" ->
  http.Method r ≠ "POST" ->
  http.Method r ≠ "OPTIONS" ->
  http.StatusCode (serve r wd).1 = http.StatusMethodNotAllowed ∧
  http.Content (serve r wd).1 = ln (message "Método no permitido") ∧
  json.readValue json.reset (http.Content (serve r wd).1)
    = inl (json.Object [("message", json.Str "Método no permitido")]) ∧
  (serve r wd).2 = wd.
Proof.
  intros HP HM HO. rewrite serve_method_not_allowed by done.
  repeat split.
Qed.

(** A GET, with a body that would be a valid submission. *)
Lemma GET_not_allowed :
  "GET" ≠ "POST" ∧ "GET" ≠ "OPTIONS" ∧
  http.StatusCode (serve (request "GET" "/submit-service" ana_json) healthy).1 = 405 ∧
  (serve (request "GET" "/submit-service" ana_json) healthy).2 = healthy.
Proof.
  assert (H1 : "GET" ≠ "POST") by discriminate.
  assert (H2 : "GET" ≠ "OPTIONS") by discriminate.
  destruct (other_method_not_allowed (request "GET" "/submit-service" ana_json)
              healthy eq_refl H1 H2) as (H3 & _ & _ & H4).
  exact (conj H1 (conj H2 (conj H3 H4))).
Defined.

(** C4 as it is worded does not hold of any path. The program serves
    with [DefaultServeMux], which answers a request whose path is not in
    canonical form itself, with a redirect to the clean path, and the
    registered function does not run: an OPTIONS request to
    [/a/../submit-service] is answered 301, not 200. *)
Lemma options_redirected :
  http.Method (request "OPTIONS" "/a/../submit-service" "") = "OPTIONS" ∧
  (serve (request "OPTIONS" "/a/../submit-service" "") healthy).1
  = response http.StatusMovedPermanently [("Location", ["/submit-service"])] "".
Proof. split; reflexivity. Qed.

(** C4, amended — A request whose method is OPTIONS, to any path in
    canonical form, is answered 200 with an empty body. The check comes
    first in the registered function: no body is read and the database is
    not touched, the surroundings stay as they were. [submitServiceHandler]
    has the same check of its own. *)
Theorem options_preflight r wd :
  http.Method r = "OPTIONS" ->
  canonical (http.Path r) ->
  (http.StatusCode (serve r wd).1 = http.StatusOK ∧
   http.Content (serve r wd).1 = "" ∧
   (serve r wd).2 = wd) ∧
  (http.StatusCode (http.finish (w (submitServiceHandler r
      {| w := http.fresh; world := wd |}).2)) = http.StatusOK ∧
   http.Content (http.finish (w (submitServiceHandler r
      {| w := http.fresh; world := wd |}).2)) = "" ∧
   world (submitServiceHandler r {| w := http.fresh; world := wd |}).2 = wd).
Proof.
  intros HM Hc. rewrite serve_preflight by (done || by apply canonical_routed).
  split; [done|]. unfold submitServiceHandler. rewrite HM. done.
Qed.

(** An OPTIONS request to some path, with a body, while the server cannot
    be reached. *)
Lemma options_any_path :
  canonical "/any/path" ∧
  http.StatusCode (serve (request "OPTIONS" "/any/path" ana_json) offline).1 = 200 ∧
  http.Content (serve (request "OPTIONS" "/any/path" ana_json) offline).1 = "" ∧
  (serve (request "OPTIONS" "/any/path" ana_json) offline).2 = offline.
Proof.
  split; [reflexivity|].
  exact (proj1 (options_preflight (request "OPTIONS" "/any/path" ana_json)
                  offline eq_refl eq_refl)).
Defined.

(** C5 — A POST to [/submit-service] that decodes and whose insert
    returns an error [e] is answered 500 with the fixed error body
    [{"message": "Error interno del servidor al guardar la solicitud"}].
    The error text is logged: the last thing the handler does to its
    surroundings is to log [e] behind a fixed prefix. The response is a
    value in which [e] does not occur, so whatever made the insert fail,
    here or in any other surroundings, the caller receives the same
    response. No row is written. *)
Theorem insert_error_internal r wd s d e :
  http.Method r = "POST" ->
  http.Path r = "/submit-service" ->
  json.Decode (http.Body r) zero = (s, None) ->
  sql.Exec insertSQL (args s) (db wd) = (d, Some e) ->
  (serve r wd).1
    = response http.StatusInternalServerError (cors "POST, OPTIONS" ++ plain)
        (ln (message "Error interno del servidor al guardar la solicitud")) ∧
  json.readValue json.reset (http.Content (serve r wd).1)
    = inl (json.Object
             [("message", json.Str "Error interno del servidor al guardar la solicitud")]) ∧
  last (trace (serve r wd).2) = Some (Log ("Error al insertar en la base de datos: " +:+ e)) ∧
  (∀ wd' d' e', sql.Exec insertSQL (args s) (db wd') = (d', Some e') ->
                (serve r wd').1 = (serve r wd).1) ∧
  sql.solicitudes (db (serve r wd).2) = sql.solicitudes (db wd).
Proof.
  intros HM HP HD HE.
  assert (Hfixed : ∀ wd' d' e', sql.Exec insertSQL (args s) (db wd') = (d', Some e') ->
            (serve r wd').1
              = response http.StatusInternalServerError (cors "POST, OPTIONS" ++ plain)
                  (ln (message "Error interno del servidor al guardar la solicitud"))).
  { intros wd' d' e' HE'. by erewrite serve_insert_failed. }
  split; [by eapply Hfixed|].
  split; [erewrite Hfixed by exact HE; reflexivity|]. split; [|split].
  - erewrite serve_insert_failed by done. simpl. apply last_snoc.
  - intros wd' d' e' HE'. rewrite (Hfixed _ _ _ HE'), (Hfixed _ _ _ HE). done.
  - erewrite serve_insert_failed by done. simpl. by apply Exec_error in HE as [? _].
Qed.

(** The scenario of the specification: Ana's submission while the server
    cannot be reached. *)
Lemma insert_error_unreachable :
  json.Decode ana_json zero = (ana, None) ∧
  sql.Exec insertSQL (args ana) (db offline)
    = (sql.answered unreachable, Some "invalid connection") ∧
  http.StatusCode (serve (post ana_json) offline).1 = 500 ∧
  last (trace (serve (post ana_json) offline).2)
    = Some (Log "Error al insertar en la base de datos: invalid connection") ∧
  sql.solicitudes (db (serve (post ana_json) offline).2) = sql.solicitudes (db offline).
Proof.
  assert (HD : json.Decode ana_json zero = (ana, None)) by reflexivity.
  assert (HE : sql.Exec insertSQL (args ana) (db offline)
               = (sql.answered unreachable, Some "invalid connection")) by reflexivity.
  destruct (insert_error_internal (post ana_json) offline ana _ _ eq_refl eq_refl HD HE)
    as (H1 & _ & H2 & _ & H3).
  split; [exact HD|]. split; [exact HE|]. split; [by rewrite H1|].
  exact (conj H2 H3).
Defined.

(** C6 — Submission is not idempotent. When the same POST to
    [/submit-service] is served twice and both times answered 200, the
    table has two more rows than before: they hold the same three text
    fields and differ in their [id], each assigned by the server. Nothing is
    deduplicated. If the ids of the table were unique before, so they are
    afterwards. *)
Theorem no_deduplication r wd :
  http.Method r = "POST" ->
  http.Path r = "/submit-service" ->
  http.StatusCode (serve r wd).1 = http.StatusOK ->
  http.StatusCode (serve r (serve r wd).2).1 = http.StatusOK ->
  ∃ row1 row2,
    sql.solicitudes (db (serve r (serve r wd).2).2)
      = (sql.solicitudes (db wd) ++ [row1; row2])%list ∧
    sql.id row1 ≠ sql.id row2 ∧
    sql.nombre row1 = sql.nombre row2 ∧
    sql.telefono row1 = sql.telefono row2 ∧
    sql.servicio row1 = sql.servicio row2 ∧
    (unique_ids (db wd) -> unique_ids (db (serve r (serve r wd).2).2)).
Proof.
  intros HM HP H1 H2.
  assert (Hu : unique_ids (db wd) -> unique_ids (db (serve r (serve r wd).2).2))
    by (intros; by do 2 apply serve_unique_ids).
  apply accepted_inv in H1 as (s1 & now1 & HD1 & Hdb1); [|done].
  apply accepted_inv in H2 as (s2 & now2 & HD2 & Hdb2); [|done].
  assert (s2 = s1) as -> by congruence.
  revert Hu. rewrite Hdb2, Hdb1. simpl. intros Hu.
  eexists _, _. split; [by rewrite <- app_assoc|].
  split; [simpl; lia|]. do 3 (split; [reflexivity|]). exact Hu.
Qed.

(** Ana's submission, twice. *)
Lemma no_deduplication_ana :
  http.StatusCode (serve (post ana_json) healthy).1 = 200 ∧
  http.StatusCode (serve (post ana_json) (serve (post ana_json) healthy).2).1 = 200 ∧
  ∃ row1 row2,
    sql.solicitudes (db (serve (post ana_json) (serve (post ana_json) healthy).2).2)
      = (sql.solicitudes (db healthy) ++ [row1; row2])%list ∧
    sql.id row1 ≠ sql.id row2 ∧
    sql.nombre row1 = sql.nombre row2 ∧
    sql.telefono row1 = sql.telefono row2 ∧
    sql.servicio row1 = sql.servicio row2 ∧
    (unique_ids (db healthy) ->
     unique_ids (db (serve (post ana_json) (serve (post ana_json) healthy).2).2)).
Proof.
  split; [reflexivity|]. split; [reflexivity|].
  exact (no_deduplication (post ana_json) healthy eq_refl eq_refl eq_refl eq_refl).
Defined.

(** C7 as it is worded does not hold of every response the service
    produces. The redirect with which [DefaultServeMux] answers a request
    whose path is not in canonical form is a response of the service too,
    and the registered function, which sets the cross-origin headers, has
    not run for it: the answer to a GET of [//] is a 301 with [Location]
    and [Content-Type] and none of the three headers. *)
Lemma redirect_without_cors :
  (serve (request "GET" "//" "") healthy).1
  = response http.StatusMovedPermanently
      [("Content-Type", ["text/html; charset=utf-8"]); ("Location", ["/"])]
      (ln ("<a href=" +:+ quoted "/" +:+ ">Moved Permanently</a>." +:+ String LF "")) ∧
  http.Headers (serve (request "GET" "//" "") healthy).1
    !! "Access-Control-Allow-Origin" = None ∧
  http.Headers (serve (request "GET" "//" "") healthy).1
    !! "Access-Control-Allow-Methods" = None ∧
  http.Headers (serve (request "GET" "//" "") healthy).1
    !! "Access-Control-Allow-Headers" = None.
Proof. repeat split; reflexivity. Qed.

(** C7, amended — Every response to a request whose path is in canonical
    form, on each of the paths through the handlers (pre-flight, welcome
    text, 405, 400, 500 and success), carries the three cross-origin
    headers: [Access-Control-Allow-Origin: *],
    [Access-Control-Allow-Methods] (the methods named by the handler that
    answered) and [Access-Control-Allow-Headers]. *)
Theorem cors_on_every_response r wd :
  canonical (http.Path r) ->
  http.Headers (serve r wd).1 !! "Access-Control-Allow-Origin" = Some ["*"] ∧
  (http.Headers (serve r wd).1 !! "Access-Control-Allow-Methods"
     = Some ["POST, GET, OPTIONS, PUT, DELETE"] ∨
   http.Headers (serve r wd).1 !! "Access-Control-Allow-Methods"
     = Some ["POST, OPTIONS"]) ∧
  http.Headers (serve r wd).1 !! "Access-Control-Allow-Headers" = Some [allowHeaders].
Proof.
  intros Hc.
  destruct (serve_outcome r wd (canonical_routed r Hc));
    (split; [reflexivity|split; [|reflexivity]]); first [by left | by right].
Qed.

(** The response of the submission path to a GET, a 405. *)
Lemma cors_on_method_not_allowed :
  canonical "/submit-service" ∧
  http.StatusCode (serve (request "GET" "/submit-service" "") healthy).1 = 405 ∧
  http.Headers (serve (request "GET" "/submit-service" "") healthy).1
    !! "Access-Control-Allow-Origin" = Some ["*"] ∧
  http.Headers (serve (request "GET" "/submit-service" "") healthy).1
    !! "Access-Control-Allow-Methods" = Some ["POST, OPTIONS"] ∧
  http.Headers (serve (request "GET" "/submit-service" "") healthy).1
    !! "Access-Control-Allow-Headers" = Some [allowHeaders].
Proof.
  destruct (cors_on_every_response (request "GET" "/submit-service" "") healthy eq_refl)
    as (H1 & _ & H3).
  split; [reflexivity|]. split; [reflexivity|]. split; [exact H1|].
  split; [reflexivity|exact H3].
Defined.

(** C8 — Start-up is all or nothing. If [MYSQL_URL] is not set (or is
    empty), if [sql.Open] returns an error, if the ping fails, or if
    creating the table fails, [main] logs a message that names the failure
    and ends the process with status 1: the failing call is made once, the
    message is the last thing the process does, and in particular no handler
    is registered and no port is listened on. Conversely the process only
    comes to serve requests when all four have succeeded, and it does so
    when they have and the port can be listened on. *)
Theorem startup_all_or_nothing wd :
  (Getenv "MYSQL_URL" wd = "" ->
   fatal wd []
     "La variable de entorno MYSQL_URL no está configurada. Asegúrate de que Railway la esté inyectando o configúrala localmente para pruebas.") ∧
  (∀ e, Getenv "MYSQL_URL" wd ≠ "" ->
        dsnError wd (Getenv "MYSQL_URL" wd) = Some e ->
        fatal wd [EOpen "mysql" (Getenv "MYSQL_URL" wd)]
          ("Error al conectar a la base de datos: " +:+ e)) ∧
  (∀ e, opened wd ->
        (sql.Ping (db wd)).2 = Some e ->
        fatal wd [EOpen "mysql" (Getenv "MYSQL_URL" wd); EPing]
          ("Error al hacer ping a la base de datos: " +:+ e)) ∧
  (∀ e, pinged wd ->
        (sql.Exec createTableSQL [] (sql.Ping (db wd)).1).2 = Some e ->
        fatal wd
          [EOpen "mysql" (Getenv "MYSQL_URL" wd); EPing;
           Stdout (ln "Conexión a la base de datos MySQL establecida con éxito.");
           EExec createTableSQL []]
          ("Error al crear la tabla 'solicitudes': " +:+ e)) ∧
  (∀ addr, (main wd).1 = Serve addr -> created wd) ∧
  (created wd -> listenError wd = None ->
   ∃ addr, (main wd).1 = Serve addr ∧
           last (trace (main wd).2) = Some (EListenAndServe addr)).
Proof.
  split; [apply main_without_url|]. split; [apply main_open_error|].
  split; [apply main_ping_error|]. split; [apply main_create_error|]. split.
  - intros a Hserve.
    destruct (decide (Getenv "MYSQL_URL" wd = "")) as [H1|H1].
    { apply main_without_url in H1 as [H1 _]. congruence. }
    destruct (dsnError wd (Getenv "MYSQL_URL" wd)) as [e|] eqn:H2.
    { eapply main_open_error in H2 as [H2 _]; [congruence|done]. }
    destruct (sql.Ping (db wd)).2 as [e|] eqn:H3.
    { eapply main_ping_error in H3 as [H3 _]; [congruence|done]. }
    destruct (sql.Exec createTableSQL [] (sql.Ping (db wd)).1).2 as [e|] eqn:H4.
    { eapply main_create_error in H4 as [H4 _]; [congruence|done]. }
    done.
  - intros Hc Hl. destruct (main_created wd Hc) as [Hres Htrace].
    rewrite Hl in Hres, Htrace. exists (addr wd). split; [done|].
    by rewrite Htrace, app_nil_r, last_app.
Qed.

(** The connection string is there, and the server cannot be reached. *)
Lemma startup_ping_fails :
  opened (surroundings [("MYSQL_URL", "mysql://db")] unreachable) ∧
  (sql.Ping (db (surroundings [("MYSQL_URL", "mysql://db")] unreachable))).2
    = Some "invalid connection" ∧
  fatal (surroundings [("MYSQL_URL", "mysql://db")] unreachable)
    [EOpen "mysql" "mysql://db"; EPing]
    "Error al hacer ping a la base de datos: invalid connection".
Proof.
  assert (H1 : opened (surroundings [("MYSQL_URL", "mysql://db")] unreachable))
    by (split; [discriminate|reflexivity]).
  split; [exact H1|]. split; [reflexivity|].
  destruct (startup_all_or_nothing (surroundings [("MYSQL_URL", "mysql://db")] unreachable))
    as (_ & _ & H & _).
  exact (H "invalid connection" H1 eq_refl).
Defined.

(** C9 as it is worded does not hold of every path other than
    [/submit-service]. [DefaultServeMux] answers a request whose path is not
    in canonical form with a redirect, and the registered function with its
    welcome text does not run: a GET of [//] is answered 301 with a link to
    [/]. *)
Lemma default_route_redirected :
  http.Path (request "GET" "//" "") ≠ "/submit-service" ∧
  http.Method (request "GET" "//" "") ≠ "OPTIONS" ∧
  http.StatusCode (serve (request "GET" "//" "") healthy).1 = http.StatusMovedPermanently ∧
  http.Headers (serve (request "GET" "//" "") healthy).1 !! "Location" = Some ["/"] ∧
  http.Content (serve (request "GET" "//" "") healthy).1
  = ln ("<a href=" +:+ quoted "/" +:+ ">Moved Permanently</a>." +:+ String LF "").
Proof. repeat split; (discriminate || reflexivity). Qed.

(** C9, amended — A request to a path in canonical form other than
    [/submit-service] with a method other than OPTIONS is answered 200 with
    the fixed welcome text, sent as plain text. The database is not
    touched: the surroundings stay as they were. *)
Theorem default_route_welcome r wd :
  http.Path r ≠ "/submit-service" ->
  http.Method r ≠ "OPTIONS" ->
  canonical (http.Path r) ->
  http.StatusCode (serve r wd).1 = http.StatusOK ∧
  http.Content (serve r wd).1
    = ln "Bienvenido a la API de servicios. Usa /submit-service para enviar datos." ∧
  http.Headers (serve r wd).1 !! "Content-Type" = Some ["text/plain; charset=utf-8"] ∧
  (serve r wd).2 = wd.
Proof.
  intros HP HM Hc. rewrite serve_welcome by (done || by apply canonical_routed).
  repeat split.
Qed.

(** A POST to the root path, with a body that would be a valid
    submission. *)
Lemma default_route_POST_root :
  "/" ≠ "/submit-service" ∧ "POST" ≠ "OPTIONS" ∧ canonical "/" ∧
  http.StatusCode (serve (request "POST" "/" ana_json) healthy).1 = 200 ∧
  (serve (request "POST" "/" ana_json) healthy).2 = healthy.
Proof.
  assert (H1 : "/" ≠ "/submit-service") by discriminate.
  assert (H2 : "POST" ≠ "OPTIONS") by discriminate.
  destruct (default_route_welcome (request "POST" "/" ana_json) healthy H1 H2 eq_refl)
    as (H3 & _ & _ & H4).
  exact (conj H1 (conj H2 (conj eq_refl (conj H3 H4)))).
Defined.

(** C10 as it is worded does not hold for every object that lacks
    fields: [{"nombre":123}] is a JSON object without [telefono] and
    [servicio], but its [nombre] is a number, the decoder returns a type
    error and the handler answers 400 without a row. Nor does it hold when
    the insert fails: [{}] sent while the server cannot be reached is
    answered 500 without a row. *)
Lemma missing_fields_not_enough :
  (json.readValue json.reset wrong_type_json
     = inl (json.Object [("nombre", json.Number "123")]) ∧
   ¬ named 1 [("nombre", json.Number "123")] ∧
   ¬ named 2 [("nombre", json.Number "123")] ∧
   (json.Decode wrong_type_json zero).2
     = Some (json.UnmarshalTypeError "number" "nombre") ∧
   http.StatusCode (serve (post wrong_type_json) healthy).1 = 400 ∧
   sql.solicitudes (db (serve (post wrong_type_json) healthy).2) = []) ∧
  (json.readValue json.reset "{}" = inl (json.Object []) ∧
   http.StatusCode (serve (post "{}") offline).1 = 500 ∧
   sql.solicitudes (db (serve (post "{}") offline).2) = []).
Proof.
  assert (Hnot : ∀ i, i ≠ 0 -> ¬ named i [("nombre", json.Number "123")]).
  { intros i Hi Hn. apply Exists_cons in Hn as [Hn|Hn].
    - vm_compute in Hn. congruence.
    - by apply Exists_nil in Hn. }
  split; repeat split; try reflexivity; by apply Hnot.
Qed.

(** C10, amended — Field presence is not enforced. Take a POST to
    [/submit-service] whose body is a JSON object in which every member
    that names a field of [Solicitud] holds a string or [null], and let the
    database run the insert without error. Then decoding succeeds, the
    answer is 200, and one row is appended that has the empty string in
    each column whose field no member of the object names. *)
Theorem missing_fields_empty r wd ms d :
  http.Method r = "POST" ->
  http.Path r = "/submit-service" ->
  json.readValue json.reset (http.Body r) = inl (json.Object ms) ->
  strings ms ->
  sql.Exec insertSQL (args (json.Decode (http.Body r) zero).1) (db wd) = (d, None) ->
  (json.Decode (http.Body r) zero).2 = None ∧
  http.StatusCode (serve r wd).1 = http.StatusOK ∧
  ∃ row,
    sql.solicitudes (db (serve r wd).2) = (sql.solicitudes (db wd) ++ [row])%list ∧
    (¬ named 0 ms -> sql.nombre row = "") ∧
    (¬ named 1 ms -> sql.telefono row = "") ∧
    (¬ named 2 ms -> sql.servicio row = "").
Proof.
  intros HM HP HV Hs HE.
  destruct (fold_member ms Hs zero) as (s & Hfold & H0 & H1 & H2).
  assert (HD : json.Decode (http.Body r) zero = (s, None)).
  { unfold json.Decode. rewrite HV. exact Hfold. }
  rewrite HD in *. simpl in HE. split; [done|].
  erewrite serve_accepted by done. split; [done|]. simpl.
  apply Exec_insert_ran in HE as (now & _ & ->). simpl. eauto 10.
Qed.

(** The empty object: a row of three empty strings. *)
Lemma empty_object_accepted :
  json.readValue json.reset "{}" = inl (json.Object []) ∧
  strings [] ∧
  (json.Decode "{}" zero).2 = None ∧
  http.StatusCode
    (serve (post "{}") healthy).1 = 200 ∧
  ∃ row,
    sql.solicitudes
      (db (serve (post "{}") healthy).2)
      = ([] ++ [row])%list ∧
    (¬ named 0 [] -> sql.nombre row = "") ∧
    (¬ named 1 [] -> sql.telefono row = "") ∧
    (¬ named 2 [] -> sql.servicio row = "").
Proof.
  assert (HV : json.readValue json.reset "{}" = inl (json.Object [])) by reflexivity.
  assert (Hs : strings []) by apply Forall_nil_2.
  split; [exact HV|]. split; [exact Hs|].
  exact (missing_fields_empty (post "{}") healthy
           [] (sql.insert "" "" "" 0 (sql.answered running))
           eq_refl eq_refl HV Hs eq_refl).
Defined.

(** ** The scenarios of the specification, and a few more *)

(** With [MYSQL_URL] set and the server running, [main] comes to listen
    on the default port. *)
Example main_listens :
  (main (surroundings [("MYSQL_URL", "mysql://db")] running)).1 = Serve ":8080" ∧
  trace (main (surroundings [("MYSQL_URL", "mysql://db")] running)).2
    = [EOpen "mysql" "mysql://db"; EPing;
       Stdout (ln "Conexión a la base de datos MySQL establecida con éxito.");
       EExec createTableSQL [];
       Stdout (ln "Tabla 'solicitudes' verificada/creada con éxito.");
       EHandleFunc "/";
       Stdout (ln "Servidor Go escuchando en el puerto :8080");
       EListenAndServe ":8080"].
Proof. split; reflexivity. Qed.

(** A body that stops in the middle of a value is malformed. *)
Example decode_truncated :
  (json.Decode ("{" +:+ quoted "nombre" +:+ ":" +:+ String DQ "Ana") zero).2
    = Some json.ErrUnexpectedEOF.
Proof. reflexivity. Qed.

(** An empty body is an error too. *)
Example decode_empty : (json.Decode "" zero).2 = Some json.EOF.
Proof. reflexivity. Qed.

(** Keys are matched without regard to case, escapes are resolved, a key
    that names no field is skipped, and what follows the first value is not
    read. *)
Example decode_lenient :
  json.Decode
    ("  {" +:+ quoted "NOMBRE" +:+ ": " +:+ quoted "Jos\u00e9" +:+ ", "
     +:+ quoted "edad" +:+ ": [1, 2.5e3, true], "
     +:+ quoted "Servicio" +:+ ": " +:+ quoted "a\/b" +:+ "} trailing text")
    zero
  = ({| Nombre := "José"; Telefono := ""; Servicio := "a/b" |}, None).
Proof. reflexivity. Qed.

(** The body [null] decodes without error and leaves the zero value. *)
Example decode_null : json.Decode "null" zero = (zero, None).
Proof. reflexivity. Qed.

(** * Further properties

    What the code shows beyond the claims of the specification: the rest of
    [main], the headers and the effects of the handlers, the bodies the
    decoder takes, and what a sequence of requests does to the table. *)

(** ** The database handle *)

Lemma Ping_table d :
  sql.solicitudes (sql.Ping d).1 = sql.solicitudes d ∧
  sql.AUTO_INCREMENT (sql.Ping d).1 = sql.AUTO_INCREMENT d.
Proof. unfold sql.Ping. by destruct (sql.server d (sql.sent d)). Qed.

Lemma Exec_create_table d :
  sql.solicitudes (sql.Exec createTableSQL [] d).1 = sql.solicitudes d ∧
  sql.AUTO_INCREMENT (sql.Exec createTableSQL [] d).1 = sql.AUTO_INCREMENT d.
Proof.
  unfold sql.Exec. destruct (sql.server d (sql.sent d)); [|done].
  rewrite decide_False by discriminate. by rewrite decide_True.
Qed.

Lemma Exec_sent query args d : sql.sent (sql.Exec query args d).1 = S (sql.sent d).
Proof.
  unfold sql.Exec. destruct (sql.server d (sql.sent d)); [|done].
  repeat case_decide; [destruct args as [|? [|? [|? [|? ?]]]]|..]; done.
Qed.

Lemma increasing_insert n t s now d :
  increasing d -> increasing (sql.insert n t s now (sql.answered d)).
Proof.
  intros [Hlt Hai]. split; simpl.
  - intros i j ri rj Hij Hi Hj.
    apply lookup_app_Some in Hj as [Hj|[Hlen Hj]].
    + apply lookup_app_Some in Hi as [Hi|[Hlen _]]; [by eapply Hlt|].
      apply lookup_lt_Some in Hj. lia.
    + apply list_lookup_singleton_Some in Hj as [Hj <-]. simpl.
      apply lookup_app_Some in Hi as [Hi|[Hlen' _]]; [|lia].
      rewrite Forall_forall in Hai. apply Hai. by eapply list_elem_of_lookup_2.
  - apply Forall_app. split.
    + eapply Forall_impl; [exact Hai|]. simpl. intros. lia.
    + repeat constructor. simpl. lia.
Qed.

(** ** One request *)

(** The response depends on the request through its method, its path
    and what its body decodes to, and on nothing else of it. *)
Lemma serve_ext r r' wd :
  http.Method r = http.Method r' -> http.Path r = http.Path r' ->
  json.Decode (http.Body r) zero = json.Decode (http.Body r') zero ->
  serve r wd = serve r' wd.
Proof.
  intros HM HP HD. unfold serve, DefaultServeMux, http.ServeMux_Handler.
  rewrite HM, HP. repeat case_match; try done; handlers; by rewrite HM, HP, HD.
Qed.


(** ** The scanner *)

Ltac scan :=
  unfold json.transition, json.beginValue, json.beginString, json.endNumber,
    json.afterValue, json.endValue, json.pushParseState, json.continue.

Lemma transition_settled s c s' :
  settled s -> json.transition s c = json.scanContinue s' -> settled s'.
Proof.
  destruct s as [st stack]. intros Hs. unfold settled in Hs. simpl in Hs. scan. simpl.
  destruct st; repeat case_match; try discriminate; intros ?; simplify_eq;
    try exact I; unfold settled; simpl; try tauto.
  all: destruct Hs as [?|[?|[?|[?|[?|[?|[?|[?|?]]]]]]]]; simplify_eq; tauto.
Qed.

(** The space that stands for the end of the input ends a number and
    nothing else. *)
Lemma transition_space s v :
  settled s -> json.transition s " " = json.scanEnd v -> ∃ lit, v = json.Number lit.
Proof.
  destruct s as [st stack]. unfold settled. simpl. intros Hs.
  destruct st; cbn; try discriminate;
    try (unfold json.endNumber, json.endValue;
         destruct stack as [|[ms [k|]|ms [k|]|vs] stack]; cbn; try discriminate;
         intros [= <-]; by eexists).
  destruct Hs as [?|[?|[?|[?|[?|[?|[?|[?|?]]]]]]]]; subst; cbn; discriminate.
Qed.

(** A value that is not a number ends at one of its own bytes: what
    follows is not read. *)
Lemma readValue_app b t v :
  (∀ lit, v ≠ json.Number lit) ->
  ∀ s, settled s -> json.readValue s b = inl v -> json.readValue s (b +:+ t) = inl v.
Proof.
  intros Hv. induction b as [|c b IH]; intros s Hs.
  - simpl. destruct (json.transition s " ") eqn:Ht; try (repeat case_match; discriminate).
    intros [= ->]. apply transition_space in Ht as [lit ->]; [|done]. by destruct (Hv lit).
  - simpl. destruct (json.transition s c) eqn:Ht; try done.
    apply IH. by eapply transition_settled.
Qed.

Lemma readValue_blank ws :
  blank ws = true -> json.readValue json.reset ws = inr json.EOF.
Proof.
  induction ws as [|c ws IH]; [done|]. simpl. intros [Hc Hws]%andb_true_iff.
  unfold json.transition at 1. simpl. rewrite Hc. by apply IH.
Qed.

Lemma readValue_feed buf rest :
  ∀ s s', feed s buf = Some s' -> json.readValue s (buf +:+ rest) = json.readValue s' rest.
Proof.
  induction buf as [|c buf IH]; intros s s'; simpl; [by intros [= ->]|].
  destruct (json.transition s c); try done. apply IH.
Qed.

Lemma feed_app b1 b2 :
  ∀ s s', feed s b1 = Some s' -> feed s (b1 +:+ b2) = feed s' b2.
Proof.
  induction b1 as [|c b1 IH]; intros s s'; simpl; [by intros [= ->]|].
  destruct (json.transition s c); try done. apply IH.
Qed.

Lemma append_assoc (a b c : string) : (a +:+ b) +:+ c = a +:+ (b +:+ c).
Proof.
  induction a as [|x a IH]; [reflexivity|].
  change (String x ((a +:+ b) +:+ c) = String x (a +:+ (b +:+ c))). by rewrite IH.
Qed.

Lemma quoted_app s rest : quoted s +:+ rest = String DQ (s +:+ String DQ rest).
Proof.
  unfold quoted.
  change (String DQ ((s +:+ String DQ "") +:+ rest) = String DQ (s +:+ String DQ rest)).
  by rewrite append_assoc.
Qed.

(** *** What the encoder writes, the scanner reads back *)

Lemma low_byte c :
  (byte_of c <? 0x80)%N = true ->
  ∃ b0 b1 b2 b3 b4 b5 b6, c = Ascii b0 b1 b2 b3 b4 b5 b6 false.
Proof.
  destruct c as [b0 b1 b2 b3 b4 b5 b6 []]; [|by eauto 10].
  destruct b0, b1, b2, b3, b4, b5, b6; discriminate.
Qed.

(** Each of the 128 ASCII bytes, as [json.appendByte] writes it. *)
Lemma feed_appendByte c us stack :
  (byte_of c <? 0x80)%N = true ->
  feed (inString us stack) (json.appendByte c) = Some (inString (unit_of c :: us) stack).
Proof.
  intros (b0 & b1 & b2 & b3 & b4 & b5 & b6 & ->)%low_byte.
  destruct b0, b1, b2, b3, b4, b5, b6; vm_compute; reflexivity.
Qed.

Lemma unquote_unit c tl :
  (byte_of c <? 0x80)%N = true ->
  json.unquote 0 (unit_of c :: tl) = String c (json.unquote 0 tl).
Proof.
  intros (b0 & b1 & b2 & b3 & b4 & b5 & b6 & ->)%low_byte.
  destruct b0, b1, b2, b3, b4, b5, b6; reflexivity.
Qed.

Lemma feed_appendBytes s stack :
  ascii_only s = true ->
  ∀ us, feed (inString us stack) (json.appendBytes s)
        = Some (inString (rev (units s) ++ us)%list stack).
Proof.
  induction s as [|c s IH]; [done|]. simpl. intros [Hc Hs]%andb_true_iff us.
  erewrite feed_app by by apply feed_appendByte.
  rewrite IH by done. by rewrite <- app_assoc.
Qed.

Lemma unquote_units s : ascii_only s = true -> json.unquote 0 (units s) = s.
Proof.
  induction s as [|c s IH]; [done|]. cbn [units ascii_only].
  intros [Hc Hs]%andb_true_iff. rewrite unquote_unit by done. by rewrite IH.
Qed.

(** A string literal of ASCII text, from behind its opening quote. *)
Lemma readValue_string s stack rest :
  ascii_only s = true ->
  json.readValue (inString [] stack) (json.appendBytes s +:+ String DQ rest)
  = match json.endValue (json.Str s) stack with
    | json.scanContinue s' => json.readValue s' rest
    | json.scanEnd v => inl v
    | json.scanError msg => inr (json.SyntaxError msg)
    end.
Proof.
  intros Hs. erewrite readValue_feed by by apply feed_appendBytes.
  rewrite app_nil_r. cbn [json.readValue]. unfold json.transition. simpl.
  by rewrite rev_involutive, unquote_units.
Qed.

(** One member, [key:value]. *)
Lemma readValue_member k v st ms stack rest :
  beginKey st -> ascii_only k = true -> ascii_only v = true ->
  json.readValue (inObject st ms stack)
    (json.appendString k +:+ ":" +:+ json.appendString v +:+ rest)
  = json.readValue (afterMember (ms ++ [(k, json.Str v)]) stack) rest.
Proof.
  intros Hst Hk Hv. unfold json.appendString. rewrite quoted_app.
  change (":" +:+ quoted (json.appendBytes v) +:+ rest)
    with (String ":" (quoted (json.appendBytes v) +:+ rest)).
  rewrite quoted_app.
  assert (Hopen : json.transition (inObject st ms stack) DQ
                  = json.scanContinue (inString [] (json.parseObjectKey ms None :: stack)))
    by (by destruct Hst as [->| ->]).
  cbn [json.readValue]. rewrite Hopen, readValue_string by done.
  cbn [json.endValue json.continue json.readValue]. unfold json.transition. simpl.
  by apply readValue_string.
Qed.

(** The members of an object, separated by commas. *)
Lemma readValue_members m :
  m ≠ [] -> Forall ascii_pair m ->
  ∀ st ms stack rest, beginKey st ->
    json.readValue (inObject st ms stack) (json.members m +:+ rest)
    = json.readValue (afterMember (ms ++ (text <$> m)) stack) rest.
Proof.
  intros Hm Hall. induction Hall as [|[k v] m [Hk Hv] Hall IH]; [done|].
  intros st ms stack rest Hst. destruct m as [|[k' v'] m].
  - cbn [json.members]. rewrite !append_assoc. by apply readValue_member.
  - change (json.members ((k, v) :: (k', v') :: m))
      with (json.appendString k +:+ ":" +:+ json.appendString v +:+ ","
            +:+ json.members ((k', v') :: m)).
    rewrite !append_assoc. rewrite readValue_member by done.
    change ("," +:+ json.members ((k', v') :: m) +:+ rest)
      with (String "," (json.members ((k', v') :: m) +:+ rest)).
    cbn [json.readValue]. unfold json.transition. simpl.
    change (json.readValue (inObject json.stateBeginString (ms ++ [(k, json.Str v)]) stack)
              (json.members ((k', v') :: m) +:+ rest) =
            json.readValue (afterMember (ms ++ (text <$> (k, v) :: (k', v') :: m)) stack) rest).
    rewrite IH by (done || by right). by rewrite <- app_assoc.
Qed.

(** An object of ASCII strings as the encoder writes it is read back as
    that object, whatever follows it. *)
Lemma readValue_object m rest :
  Forall ascii_pair m ->
  json.readValue json.reset ("{" +:+ json.members m +:+ "}" +:+ rest)
  = inl (json.Object (text <$> m)).
Proof.
  intros Hall.
  change ("{" +:+ json.members m +:+ "}" +:+ rest)
    with (String "{" (json.members m +:+ "}" +:+ rest)).
  cbn [json.readValue]. unfold json.transition. simpl.
  destruct m as [|p m]; [reflexivity|].
  change (json.readValue (inObject json.stateBeginStringOrEmpty [] [])
            (json.members (p :: m) +:+ "}" +:+ rest) = inl (json.Object (text <$> p :: m))).
  rewrite readValue_members by (done || by left). reflexivity.
Qed.

(** ** The decoder *)

(** A member changes the field it names, if any, and no other. *)
Lemma member_field i (acc : Solicitud * option json.Error) m :
  fst <$> json.findField json.fieldNames m.1 ≠ Some i ->
  field i (json.member acc m).1 = field i acc.1.
Proof.
  unfold json.member. destruct (json.findField json.fieldNames m.1) as [[j name]|]; [|done].
  simpl. intros Hj. assert (j ≠ i) by congruence.
  destruct m.2; try done. simpl.
  destruct (setField_other j s acc.1) as (G0 & G1 & G2).
  destruct i as [|[|[|i]]]; simpl; auto.
Qed.

Lemma fold_member_field i ms :
  ¬ named i ms ->
  ∀ acc : Solicitud * option json.Error,
    field i (fold_left json.member ms acc).1 = field i acc.1.
Proof.
  induction ms as [|m ms IH]; intros Hn acc; [done|]. simpl.
  rewrite IH by (intros Hi; apply Hn; by apply Exists_cons_tl).
  apply member_field. intros Hi. apply Hn. by apply Exists_cons_hd.
Qed.

Lemma findField_index key i name :
  json.findField (@json.fieldNames Solicitud _) key = Some (i, name) ->
  ∀ v s, field i (json.setField i v s) = v.
Proof.
  unfold json.findField. intros H.
  assert (Hi : i < 3).
  { destruct (list_find (λ name, name = key) json.fieldNames) as [[j n]|] eqn:H1.
    - simplify_eq. apply list_find_Some in H1 as (H1 & _). by apply lookup_lt_Some in H1.
    - apply list_find_Some in H as (H & _). by apply lookup_lt_Some in H. }
  destruct i as [|[|[|i]]]; [done..|lia].
Qed.

(** The names of the three fields differ also when case is ignored. *)
Lemma foldName_fields i j n m :
  @json.fieldNames Solicitud _ !! i = Some n ->
  @json.fieldNames Solicitud _ !! j = Some m ->
  json.foldName n = json.foldName m -> i = j.
Proof.
  destruct i as [|[|[|i]]], j as [|[|[|j]]]; simpl; intros; simplify_eq; done.
Qed.

(** A key that is the name of a field up to case names that field. *)
Lemma findField_fold k i name :
  @json.fieldNames Solicitud _ !! i = Some name ->
  json.foldName k = json.foldName name ->
  json.findField (@json.fieldNames Solicitud _) k = Some (i, name).
Proof.
  intros Hi Hk. unfold json.findField.
  destruct (list_find (λ name, name = k) json.fieldNames) as [[j n]|] eqn:H1.
  - apply list_find_Some in H1 as (Hj & -> & _).
    assert (j = i) as -> by (eapply foldName_fields; eauto).
    congruence.
  - apply list_find_Some. split; [done|]. split; [done|].
    intros j y Hj Hlt Hy.
    assert (j = i) by (eapply foldName_fields; eauto; congruence). lia.
Qed.

(** ** The further properties, one by one *)

(** X1 — When the four start-up steps succeed and the port can be
    listened on, [main] listens on [":" + PORT], and on [":8080"] when
    [PORT] is not set or is empty. By then it has opened the handle, pinged,
    created the table, registered one handler, for the pattern ["/"], and
    printed its three lines, in this order and nothing else. *)
Theorem main_listens_on_port wd :
  created wd -> listenError wd = None ->
  (Getenv "PORT" wd = "" -> (main wd).1 = Serve ":8080") ∧
  (Getenv "PORT" wd ≠ "" -> (main wd).1 = Serve (":" +:+ Getenv "PORT" wd)) ∧
  ∃ port,
    (main wd).1 = Serve (":" +:+ port) ∧
    trace (main wd).2
      = (trace wd ++
         [EOpen "mysql" (Getenv "MYSQL_URL" wd); EPing;
          Stdout (ln "Conexión a la base de datos MySQL establecida con éxito.");
          EExec createTableSQL [];
          Stdout (ln "Tabla 'solicitudes' verificada/creada con éxito.");
          EHandleFunc "/";
          Stdout (ln ("Servidor Go escuchando en el puerto :" +:+ port));
          EListenAndServe (":" +:+ port)])%list.
Proof.
  intros Hc Hl. destruct (main_created wd Hc) as [Hres Htrace].
  rewrite Hl in Hres, Htrace. rewrite app_nil_r in Htrace.
  rewrite Hres. unfold addr. split; [|split].
  - intros ->. reflexivity.
  - intros Hp. by rewrite decide_False.
  - eexists. split; [reflexivity|]. exact Htrace.
Qed.

(** Railway's way: [PORT] is set. *)
Lemma main_listens_on_3000 :
  created (surroundings [("MYSQL_URL", "mysql://db"); ("PORT", "3000")] running) ∧
  (main (surroundings [("MYSQL_URL", "mysql://db"); ("PORT", "3000")] running)).1
  = Serve ":3000".
Proof.
  assert (Hc : created (surroundings [("MYSQL_URL", "mysql://db"); ("PORT", "3000")] running))
    by (repeat split; discriminate).
  assert (Hp : Getenv "PORT" (surroundings [("MYSQL_URL", "mysql://db"); ("PORT", "3000")] running)
               ≠ "") by discriminate.
  destruct (main_listens_on_port _ Hc eq_refl) as (_ & H & _).
  exact (conj Hc (H Hp)).
Defined.

(** X2 — A port that cannot be listened on is fatal, and it is found out
    last: [http.ListenAndServe] returns its error after the whole start-up,
    the handler registered, and [main] logs the error and ends the process
    with status 1. *)
Theorem listen_error_is_fatal wd e :
  created wd -> listenError wd = Some e ->
  (main wd).1 = Exit 1 ∧
  trace (main wd).2 = (trace wd ++ ready wd ++ [Log e])%list ∧
  EHandleFunc "/" ∈ trace (main wd).2.
Proof.
  intros Hc Hl. destruct (main_created wd Hc) as [Hres Htrace].
  rewrite Hl in Hres, Htrace. split; [done|]. split; [done|].
  rewrite Htrace. unfold ready. set_solver.
Qed.

Lemma listen_error_busy :
  created busy ∧
  (main busy).1 = Exit 1 ∧
  last (trace (main busy).2) = Some (Log "listen tcp :8080: bind: address already in use").
Proof.
  assert (Hc : created busy) by (repeat split; discriminate).
  destruct (listen_error_is_fatal busy _ Hc eq_refl) as (H1 & H2 & _).
  split; [exact Hc|]. split; [exact H1|]. rewrite H2. reflexivity.
Defined.

(** X3 — Start-up never changes what is stored. However [main] ends,
    the rows of [solicitudes] and the counter of its ids are what they
    were: [CREATE TABLE IF NOT EXISTS] leaves an existing table alone, so
    the service can be restarted over its data. It sends at most two
    statements, the ping and the creation of the table. *)
Theorem startup_keeps_the_table wd :
  sql.solicitudes (db (main wd).2) = sql.solicitudes (db wd) ∧
  sql.AUTO_INCREMENT (db (main wd).2) = sql.AUTO_INCREMENT (db wd) ∧
  sql.sent (db (main wd).2) <= sql.sent (db wd) + 2.
Proof.
  pose proof (Ping_table (db wd)) as (P1 & P2).
  pose proof (Exec_create_table (sql.Ping (db wd)).1) as (E1 & E2).
  pose proof (Exec_sent createTableSQL [] (sql.Ping (db wd)).1) as E3.
  assert (P3 : sql.sent (sql.Ping (db wd)).1 = S (sql.sent (db wd)))
    by (unfold sql.Ping; by destruct (sql.server (db wd) (sql.sent (db wd)))).
  start. case_decide; simpl; [by auto with lia|].
  destruct (dsnError wd (Getenv "MYSQL_URL" wd)); simpl; [by auto with lia|].
  destruct (sql.Ping (db wd)) as [d1 err1]. simpl in *.
  destruct err1; simpl; [by auto with lia|].
  destruct (sql.Exec createTableSQL [] d1) as [d2 err2]. simpl in *.
  destruct err2; simpl; [split; [congruence|split; [congruence|lia]]|].
  destruct (listenError wd); simpl; (split; [congruence|split; [congruence|lia]]).
Qed.


(** X5 — The response to a request whose path is in canonical form is
    one of six fixed values, whatever else the request holds and whatever
    the surroundings: four status codes (200, 400, 405, 500) and bodies
    that are constants of the program. The handlers send back no byte of a
    request, of a stored row or of a database error. *)
Theorem response_is_fixed r wd :
  canonical (http.Path r) ->
  (serve r wd).1 ∈ responses ∧
  http.StatusCode (serve r wd).1 ∈ [200; 400; 405; 500].
Proof.
  intros Hc. destruct (serve_outcome r wd (canonical_routed r Hc));
    unfold responses; simpl; split; set_solver.
Qed.

(** A submission that the database refuses: the fifth of the six. *)
Lemma response_is_fixed_offline :
  canonical "/submit-service" ∧
  (serve (post ana_json) offline).1 ∈ responses ∧
  http.StatusCode (serve (post ana_json) offline).1 = 500.
Proof.
  destruct (response_is_fixed (post ana_json) offline eq_refl) as [H _].
  split; [reflexivity|]. split; [exact H|reflexivity].
Defined.

(** X6 — What the responses to requests with a path in canonical form
    are labelled as. The answer to OPTIONS has no [Content-Type]. Of the others, only the success response of
    [/submit-service] is [application/json]; every error response of
    [submitServiceHandler] (405, 400, 500) goes through [http.Error], which
    replaces the [Content-Type] the handler set first: its body is the text
    of a JSON object, sent as [text/plain; charset=utf-8] with
    [X-Content-Type-Options: nosniff], as is the welcome text. *)
Theorem content_type_of_response r wd :
  canonical (http.Path r) ->
  (http.Method r = "OPTIONS" ->
   http.Headers (serve r wd).1 !! "Content-Type" = None) ∧
  (submit r ∧ http.StatusCode (serve r wd).1 = http.StatusOK ->
   http.Headers (serve r wd).1 !! "Content-Type" = Some ["application/json"] ∧
   http.Headers (serve r wd).1 !! "X-Content-Type-Options" = None) ∧
  (http.Method r ≠ "OPTIONS" ->
   ¬ (submit r ∧ http.StatusCode (serve r wd).1 = http.StatusOK) ->
   http.Headers (serve r wd).1 !! "Content-Type" = Some ["text/plain; charset=utf-8"] ∧
   http.Headers (serve r wd).1 !! "X-Content-Type-Options" = Some ["nosniff"]).
Proof.
  intros Hc. destruct (serve_outcome r wd (canonical_routed r Hc))
    as [HO|HO HP|HP HM HO|s e Hs HD|s d e Hs HD HE|s d Hs HD HE]; simpl.
  - split; [done|]. split; [|done]. intros [[HM _] _]. rewrite HO in HM. discriminate.
  - split; [done|]. split; [|done]. by intros [[_ HP'] _].
  - split; [done|]. split; [|done]. by intros [[HM' _] _].
  - split; [by intros HO; destruct Hs as [HM _]; rewrite HO in HM|].
    split; [|done]. intros [_ ?]. discriminate.
  - split; [by intros HO; destruct Hs as [HM _]; rewrite HO in HM|].
    split; [|done]. intros [_ ?]. discriminate.
  - split; [by intros HO; destruct Hs as [HM _]; rewrite HO in HM|].
    split; [done|]. intros _ Hnot. by destruct Hnot.
Qed.

(** The 400 for [{"nombre":123}] is sent as plain text. *)
Lemma content_type_of_bad_request :
  canonical "/submit-service" ∧
  http.StatusCode (serve (post wrong_type_json) healthy).1 = 400 ∧
  http.Headers (serve (post wrong_type_json) healthy).1 !! "Content-Type"
  = Some ["text/plain; charset=utf-8"] ∧
  http.Headers (serve (post wrong_type_json) healthy).1 !! "X-Content-Type-Options"
  = Some ["nosniff"].
Proof.
  destruct (content_type_of_response (post wrong_type_json) healthy eq_refl) as (_ & _ & H).
  split; [reflexivity|]. split; [reflexivity|].
  apply H; [discriminate|]. intros [_ H200]. discriminate H200.
Defined.

(** X7 — Which methods a response names, for a request whose path is in
    canonical form. A response of
    [submitServiceHandler] names [POST, OPTIONS]; every other response
    names the list of the registered function. The answer to OPTIONS is one
    of the others, also for [/submit-service]: the registered function
    answers every OPTIONS request itself, and the OPTIONS branch of
    [submitServiceHandler] is never reached through it. *)
Theorem allow_methods_of_response r wd :
  canonical (http.Path r) ->
  http.Headers (serve r wd).1 !! "Access-Control-Allow-Methods"
  = Some [if decide (http.Method r ≠ "OPTIONS" ∧ http.Path r = "/submit-service")
          then "POST, OPTIONS" else "POST, GET, OPTIONS, PUT, DELETE"] ∧
  (http.Method r = "OPTIONS" ->
   (serve r wd).1 ≠ http.finish (w (submitServiceHandler r
                                      {| w := http.fresh; world := wd |}).2)).
Proof.
  intros Hc. pose proof (canonical_routed r Hc) as Hr. split.
  - destruct (serve_outcome r wd Hr)
      as [HO|HO HP|HP HM HO|s e [HM HP] HD|s d e [HM HP] HD HE|s d [HM HP] HD HE]; simpl.
    + rewrite decide_False by (by intros [? _]). done.
    + rewrite decide_False by (by intros [_ ?]). done.
    + by rewrite decide_True.
    + rewrite decide_True; [done|]. split; [|done]. rewrite HM. discriminate.
    + rewrite decide_True; [done|]. split; [|done]. rewrite HM. discriminate.
    + rewrite decide_True; [done|]. split; [|done]. rewrite HM. discriminate.
  - intros HO. rewrite serve_preflight by done.
    unfold submitServiceHandler. rewrite HO. simpl.
    intros H. apply (f_equal (λ x, http.Headers x !! "Content-Type")) in H.
    discriminate.
Qed.

(** The pre-flight for the submission path names the five methods. *)
Lemma allow_methods_of_preflight :
  canonical "/submit-service" ∧
  http.Headers (serve (request "OPTIONS" "/submit-service" "") healthy).1
    !! "Access-Control-Allow-Methods" = Some ["POST, GET, OPTIONS, PUT, DELETE"].
Proof.
  split; [reflexivity|].
  exact (proj1 (allow_methods_of_response (request "OPTIONS" "/submit-service" "")
                  healthy eq_refl)).
Defined.

(** X8 — The database sees one statement per request at most, and only
    ever the one of the program, with the three decoded fields as its
    parameters: the text of the query is [insertSQL] whatever the request
    holds, no byte of a request becomes part of a query. The handle counts
    as many statements more as were sent. *)
Theorem one_parametrised_statement r wd :
  ∃ new,
    trace (serve r wd).2 = (trace wd ++ new)%list ∧
    sql.sent (db (serve r wd).2) = sql.sent (db wd) + length (statements new) ∧
    (statements new = [] ∨
     ∃ s, submit r ∧ json.Decode (http.Body r) zero = (s, None) ∧
          statements new = [(insertSQL, [Nombre s; Telefono s; Servicio s])]).
Proof.
  destruct (serve_cases r wd) as [[_ Ho]|(_ & -> & _)];
    [|exists []; rewrite app_nil_r; simpl; split; [done|]; split; [lia|by left]].
  destruct Ho as [HO|HO HP|HP HM HO|s e Hs HD|s d e Hs HD HE|s d Hs HD HE]; simpl.
  - exists []. rewrite app_nil_r. simpl. split; [done|]. split; [lia|by left].
  - exists []. rewrite app_nil_r. simpl. split; [done|]. split; [lia|by left].
  - exists []. rewrite app_nil_r. simpl. split; [done|]. split; [lia|by left].
  - exists [EBodyRead]. simpl. split; [done|]. split; [lia|by left].
  - exists [EBodyRead; Log (received s); EExec insertSQL (args s);
            Log ("Error al insertar en la base de datos: " +:+ e)].
    rewrite <- !app_assoc. simpl. split; [done|]. split; [|right; by exists s].
    pose proof (Exec_sent insertSQL (args s) (db wd)) as H. rewrite HE in H. simpl in H. lia.
  - exists [EBodyRead; Log (received s); EExec insertSQL (args s)].
    rewrite <- !app_assoc. simpl. split; [done|]. split; [|right; by exists s].
    pose proof (Exec_sent insertSQL (args s) (db wd)) as H. rewrite HE in H. simpl in H. lia.
Qed.

(** X9 — Every submission that decodes is logged with its three fields,
    name and telephone number included, before the insert is attempted, and
    so whether the insert then succeeds or fails. After the statement the
    handler logs nothing more, or the error of the insert. *)
Theorem submission_is_logged r wd s :
  submit r -> json.Decode (http.Body r) zero = (s, None) ->
  ∃ rest,
    trace (serve r wd).2
      = (trace wd ++ [EBodyRead; Log (received s); EExec insertSQL (args s)] ++ rest)%list ∧
    (rest = [] ∨ ∃ e, rest = [Log ("Error al insertar en la base de datos: " +:+ e)]).
Proof.
  intros Hs HD.
  destruct (sql.Exec insertSQL (args s) (db wd)) as [d [e|]] eqn:HE.
  - erewrite serve_insert_failed by done. simpl. rewrite <- !app_assoc. simpl.
    eexists. split; [reflexivity|]. right. by eexists.
  - erewrite serve_accepted by done. simpl. rewrite <- !app_assoc. simpl.
    exists []. split; [reflexivity|]. by left.
Qed.

(** Ana's submission while the server cannot be reached. *)
Lemma submission_is_logged_offline :
  submit (post ana_json) ∧
  json.Decode ana_json zero = (ana, None) ∧
  Log "Solicitud recibida para el servicio 'limpieza': Nombre='Ana', Teléfono='555-1234'"
    ∈ trace (serve (post ana_json) offline).2.
Proof.
  assert (Hs : submit (post ana_json)) by (by split).
  assert (HD : json.Decode (http.Body (post ana_json)) zero = (ana, None)) by reflexivity.
  destruct (submission_is_logged (post ana_json) offline ana Hs HD) as (rest & Ht & _).
  split; [exact Hs|]. split; [exact HD|]. rewrite Ht. set_solver.
Defined.

(** X10 — Which POSTs to [/submit-service] are answered 400: exactly
    those whose body does not start with a JSON value that is [null] or an
    object in which every member that names a field of [Solicitud] holds a
    string or [null]. So a body that is not JSON, an array, a number or a
    string, and an object with a field of another type are refused, and
    nothing else is: not a missing field, not an empty one, not an unknown
    member. *)
Theorem bad_request_iff r wd :
  submit r ->
  (http.StatusCode (serve r wd).1 = http.StatusBadRequest <->
   ¬ (json.readValue json.reset (http.Body r) = inl json.Null ∨
      ∃ ms, json.readValue json.reset (http.Body r) = inl (json.Object ms) ∧ strings ms)).
Proof.
  intros [HM HP]. rewrite <- Decode_succeeds.
  destruct (serve_outcome r wd (canonical_routed r (submit_path_canonical r HP)))
    as [HO| |? HM'| s e _ HD|s d e _ HD _|s d _ HD _];
    try done; try congruence; rewrite HD; simpl; split; try done; try discriminate;
    intros H; by destruct H.
Qed.

(** An array is not a submission. *)
Lemma bad_request_array :
  submit (post "[]") ∧ http.StatusCode (serve (post "[]") healthy).1 = 400.
Proof.
  assert (Hs : submit (post "[]")) by (by split).
  split; [exact Hs|].
  apply (bad_request_iff (post "[]") healthy Hs).
  intros [H|(ms & H & _)]; discriminate H.
Defined.

(** X11 — A POST to [/submit-service] with an empty body, or with a body
    of white space only, is answered 400: the decoder finds the end of the
    input where it looks for a value. Nothing is logged or written. *)
Theorem blank_body_rejected r wd :
  submit r -> blank (http.Body r) = true ->
  (json.Decode (http.Body r) zero).2 = Some json.EOF ∧
  http.StatusCode (serve r wd).1 = http.StatusBadRequest ∧
  (serve r wd).2 = emit EBodyRead wd.
Proof.
  intros Hs Hb.
  assert (HD : json.Decode (http.Body r) zero = (zero, Some json.EOF))
    by (unfold json.Decode; by rewrite readValue_blank).
  rewrite HD. split; [done|]. by erewrite serve_bad_request.
Qed.

Lemma empty_body_rejected :
  submit (post "") ∧ blank "" = true ∧
  http.StatusCode (serve (post "") healthy).1 = 400.
Proof.
  assert (Hs : submit (post "")) by (by split).
  destruct (blank_body_rejected (post "") healthy Hs eq_refl) as (_ & H & _).
  exact (conj Hs (conj eq_refl H)).
Defined.

(** X12 — The decoder reads one JSON value and the handler never asks
    for more: when the body decodes, whatever bytes follow its first value
    are ignored. The body with anything appended is served as the body
    itself is, with the same response and the same row. *)
Theorem trailing_bytes_ignored r wd t :
  (json.Decode (http.Body r) zero).2 = None ->
  json.Decode (http.Body r +:+ t) zero = json.Decode (http.Body r) zero ∧
  serve (request (http.Method r) (http.Path r) (http.Body r +:+ t)) wd = serve r wd.
Proof.
  intros HD.
  assert (Heq : json.Decode (http.Body r +:+ t) zero = json.Decode (http.Body r) zero).
  { apply Decode_succeeds in HD. unfold json.Decode.
    destruct HD as [HV|(ms & HV & _)]; rewrite HV.
    - by rewrite (readValue_app (http.Body r) t json.Null).
    - by rewrite (readValue_app (http.Body r) t (json.Object ms)). }
  split; [exact Heq|]. by apply serve_ext.
Qed.

Lemma trailing_bytes_ana :
  (json.Decode ana_json zero).2 = None ∧
  serve (post (ana_json +:+ "] and so on")) healthy = serve (post ana_json) healthy.
Proof.
  assert (HD : (json.Decode (http.Body (post ana_json)) zero).2 = None) by reflexivity.
  split; [exact HD|].
  exact (proj2 (trailing_bytes_ignored (post ana_json) healthy "] and so on" HD)).
Defined.

(** X13 — The keys of a submission are matched to the [json] tags of
    [Solicitud] without regard to case: an object whose one member has a
    key that is [nombre], [telefono] or [servicio] in any mix of upper and
    lower case decodes, and its value is stored in that field. (The key and
    the value are ASCII here, and written as the encoder writes a string.) *)
Theorem key_case_is_ignored k v i name :
  @json.fieldNames Solicitud _ !! i = Some name ->
  json.foldName k = json.foldName name ->
  ascii_only k = true -> ascii_only v = true ->
  json.Decode ("{" +:+ json.members [(k, v)] +:+ "}") zero
  = (json.setField i v zero, None).
Proof.
  intros Hi Hfold Hk Hv. unfold json.Decode.
  assert (HR := readValue_object [(k, v)] "").
  change ("}" +:+ "") with "}" in HR. rewrite HR by (by repeat constructor).
  change (json.member (zero, None) (k, json.Str v) = (json.setField i v zero, None)).
  unfold json.member. cbn [fst snd]. by rewrite (findField_fold k i name).
Qed.

(** [{"NOMBRE":"Ana"}] *)
Lemma key_case_NOMBRE :
  json.Decode ("{" +:+ quoted "NOMBRE" +:+ ":" +:+ quoted "Ana" +:+ "}") zero
  = ({| Nombre := "Ana"; Telefono := ""; Servicio := "" |}, None).
Proof.
  exact (key_case_is_ignored "NOMBRE" "Ana" 0 "nombre" eq_refl eq_refl eq_refl eq_refl).
Defined.

(** X14 — When several members of the object name the same field, the
    last one that holds a string decides: the field ends up with the string
    of a member every later member of which names another field or none.
    This is so even if the decoder saved an error on the way. *)
Theorem last_member_decides body ms1 ms2 k v i name :
  json.readValue json.reset body = inl (json.Object (ms1 ++ (k, json.Str v) :: ms2)) ->
  json.findField (@json.fieldNames Solicitud _) k = Some (i, name) ->
  ¬ named i ms2 ->
  field i (json.Decode body zero).1 = v.
Proof.
  intros HV Hf Hn. unfold json.Decode. rewrite HV. cbn [json.unmarshal].
  rewrite fold_left_app. cbn [fold_left]. rewrite fold_member_field by done.
  unfold json.member. cbn [fst snd]. rewrite Hf. cbn [fst snd].
  by eapply findField_index.
Qed.

(** [{"nombre":"a","nombre":"b"}] *)
Lemma last_member_twice :
  json.readValue json.reset twice_json
    = inl (json.Object [("nombre", json.Str "a"); ("nombre", json.Str "b")]) ∧
  Nombre (json.Decode twice_json zero).1 = "b".
Proof.
  assert (HV : json.readValue json.reset twice_json
               = inl (json.Object ([("nombre", json.Str "a")] ++ ("nombre", json.Str "b") :: [])))
    by reflexivity.
  assert (Hn : ¬ named 0 []) by (intros H; by apply Exists_nil in H).
  split; [exact HV|].
  exact (last_member_decides twice_json _ _ "nombre" "b" 0 "nombre" HV eq_refl Hn).
Defined.



(** ** Sequences of requests *)

Lemma serve_increasing r wd :
  increasing (db wd) -> increasing (db (serve r wd).2).
Proof.
  intros Hu. destruct (serve_rows r wd) as [[Hrows Hai]|(s & now & ->)].
  - unfold increasing. rewrite Hrows, Hai. exact Hu.
  - by apply increasing_insert.
Qed.

(** X16 — Along every sequence of requests the table only grows at its
    end and the ids grow with it: the rows that were there stay, in their
    place, and when the ids were increasing down the table and below the
    counter before, they are so afterwards. A later submission has a
    greater id than an earlier one. *)
Theorem ids_increase rs wd :
  increasing (db wd) ->
  increasing (db (serve_all rs wd)) ∧
  sql.solicitudes (db wd) `prefix_of` sql.solicitudes (db (serve_all rs wd)).
Proof.
  intros Hu. split; [|apply serve_all_appends].
  revert wd Hu. induction rs as [|r rs IH]; intros wd Hu; [done|].
  cbn [serve_all]. by apply IH, serve_increasing.
Qed.

(** Ana twice, with a GET in between: ids 1 and 2. *)
Lemma ids_increase_ana :
  increasing (db healthy) ∧
  sql.id <$> sql.solicitudes
    (db (serve_all [post ana_json; request "GET" "/" ""; post ana_json] healthy)) = [1; 2]%Z ∧
  increasing (db (serve_all [post ana_json; request "GET" "/" ""; post ana_json] healthy)).
Proof.
  assert (H : increasing (db healthy)).
  { split; [|apply Forall_nil_2]. intros i j ri rj _ Hi. by destruct i. }
  split; [exact H|]. split; [reflexivity|].
  exact (proj1 (ids_increase [post ana_json; request "GET" "/" ""; post ana_json] healthy H)).
Defined.


(** X19 — The body [null] is a submission. A POST to [/submit-service]
    whose body starts with the JSON value [null] decodes without error and
    leaves the struct at its zero value; when the database takes the insert
    the answer is 200 and a row of three empty strings is stored. *)
Theorem null_body_is_stored r wd d :
  submit r ->
  json.readValue json.reset (http.Body r) = inl json.Null ->
  sql.Exec insertSQL [""; ""; ""] (db wd) = (d, None) ->
  json.Decode (http.Body r) zero = (zero, None) ∧
  http.StatusCode (serve r wd).1 = http.StatusOK ∧
  ∃ row,
    sql.solicitudes (db (serve r wd).2) = (sql.solicitudes (db wd) ++ [row])%list ∧
    sql.nombre row = "" ∧ sql.telefono row = "" ∧ sql.servicio row = "".
Proof.
  intros Hs HV HE.
  assert (HD : json.Decode (http.Body r) zero = (zero, None))
    by (unfold json.Decode; by rewrite HV).
  split; [exact HD|]. erewrite serve_accepted by done. split; [done|]. simpl.
  apply Exec_insert_ran in HE as (now & _ & ->). simpl. eauto 10.
Qed.

Lemma null_body_healthy :
  submit (post "null") ∧
  http.StatusCode (serve (post "null") healthy).1 = 200 ∧
  sql.solicitudes (db (serve (post "null") healthy).2)
  = [{| sql.id := 1; sql.nombre := ""; sql.telefono := ""; sql.servicio := "";
        sql.fecha_creacion := 0 |}].
Proof.
  assert (Hs : submit (post "null")) by (by split).
  destruct (null_body_is_stored (post "null") healthy
              (sql.insert "" "" "" 0 (sql.answered running)) Hs eq_refl eq_refl)
    as (_ & H & _).
  split; [exact Hs|]. split; [exact H|]. reflexivity.
Defined.
